(** * Metadata builder (metadata_generator.py): model and properties

    The script reads a JSONL manifest of component libraries, clones each
    repository, merges the manifest entry with the [project] table of the
    clone's pyproject.toml, writes one JSON file per library and finally an
    index of all of them.

    The program's own logic is embedded as it is written.  What it calls is
    a parameter of the model, gathered in the class [Env]:
    - [json.loads], and [json.dump] as the function from a value to the text
      it writes;
    - the parser behind [toml.load];
    - [str.lower];
    - the operating system's answer to [mkdir] and to [open(..., 'w')], which
      may be an error, and the error of [open(..., 'r')] where there is no
      regular file;
    - the external process started by [subprocess.run], which may change
      files and directories in any way and returns an exit code.

    How the model stands to Python:
    - values are those of JSON and TOML: numbers are integers or floats (a
      float is kept as its printed form), and a TOML date or time is a value
      of its own, which [json.dump] refuses with [TypeError] after it has
      written the text that comes before it;
    - a [str] is kept as its UTF-8 bytes;
    - paths follow pathlib's pure POSIX rules;
    - the state of the machine is the text of its regular files, by the path
      handed to [open], and the set of its directories; a file holds text, and
      a path [exists] when it is a regular file;
    - what a run does to the outside (directories made, processes started,
      lines printed, files written in full or in part) is recorded as a list
      of events;
    - the manifest is read when it is opened, with universal newlines. *)

From stdpp Require Import base gmap strings list pretty.
From Stdlib Require Import ZArith Ascii.

Set Warnings "-register-all".
Local Open Scope Z_scope.

(** ** Python values *)

Inductive value : Type :=
  | VNone
  | VBool (b : bool)
  | VInt (n : Z)
  | VFloat (repr : string)
  | VStr (s : string)
  | VList (l : list value)
  | VDict (d : list (string * value))
  | VDate (iso : string).

(** A dict keeps its keys in insertion order; lookup takes the first binding. *)
Fixpoint assoc (k : string) (d : list (string * value)) : option value :=
  match d with
  | [] => None
  | (k', v) :: d' => if decide (k' = k) then Some v else assoc k d'
  end.

(** [d.get(k, dflt)] on a dict. *)
Definition dict_get (d : list (string * value)) (k : string) (dflt : value) : value :=
  match assoc k d with
  | Some v => v
  | None => dflt
  end.

(** The values [json.dump] accepts: all but those that hold a date or a
    time. *)
Fixpoint serialisable (v : value) : bool :=
  match v with
  | VDate _ => false
  | VList l => forallb serialisable l
  | VDict d => forallb (λ kv, match kv with (_, x) => serialisable x end) d
  | _ => true
  end.

(** ** Lowering of ASCII text

    [str.lower] on a string of ASCII characters; the environments below use
    it on identifiers of that kind. *)

Definition lower_ascii (c : ascii) : ascii :=
  let n := N_of_ascii c in
  if ((65 <=? n)%N && (n <=? 90)%N)%bool then ascii_of_N (n + 32) else c.

Fixpoint ascii_lower (s : string) : string :=
  match s with
  | EmptyString => EmptyString
  | String c s' => String (lower_ascii c) (ascii_lower s')
  end.

(** ** pathlib, pure POSIX flavour *)

Module Path.

Record t : Type := mk { root : string; parts : list string }.

Fixpoint split_on (sep : ascii) (s : string) : list string :=
  match s with
  | EmptyString => [EmptyString]
  | String c s' =>
      if decide (c = sep) then EmptyString :: split_on sep s'
      else match split_on sep s' with
           | [] => [String c EmptyString]
           | p :: ps => String c p :: ps
           end
  end.

(** One leading slash, or three and more, make the root "/"; exactly two
    are kept. *)
Definition root_of (s : string) : string :=
  match s with
  | String "/" (String "/" (String "/" _)) => "/"
  | String "/" (String "/" _) => "//"
  | String "/" _ => "/"
  | _ => ""
  end.

Definition is_part (p : string) : bool :=
  negb (bool_decide (p = "")) && negb (bool_decide (p = ".")).

Definition parts_of (s : string) : list string :=
  List.filter is_part (split_on "/" s).

(** [Path(s)] *)
Definition of_string (s : string) : t := mk (root_of s) (parts_of s).

(** [p / s]: an absolute right-hand side replaces the left-hand side. *)
Definition div (p : t) (s : string) : t :=
  if decide (root_of s = "") then mk (root p) (parts p ++ parts_of s)
  else of_string s.

(** [str(p)] *)
Definition str (p : t) : string :=
  match root p, parts p with
  | EmptyString, [] => "."
  | r, ps => r +:+ String.concat "/" ps
  end.

(** [p.as_posix()] *)
Definition as_posix (p : t) : string := str p.

(** [p.parent] *)
Definition parent (p : t) : t := mk (root p) (removelast (parts p)).

End Path.

Notation "p // s" := (Path.div p s) (at level 40, left associativity).

(** ** The machine, and what a run does *)

(** The regular files with their text, and the directories. *)
Record State : Type := mkState {
  files : gmap string string;
  dirs : gset string
}.

(** The text of the regular file at a path. *)
#[global] Instance state_lookup : Lookup string string State := λ p st, files st !! p.

(** A file written in full. *)
#[global] Instance state_insert : Insert string string State :=
  λ p content st, mkState (<[p := content]> (files st)) (dirs st).

#[global] Instance state_empty : Empty State := mkState ∅ ∅.

Arguments state_lookup : simpl never.
Arguments state_insert : simpl never.

Definition add_dir (p : string) (st : State) : State :=
  mkState (files st) ({[p]} ∪ dirs st).

Definition remove_file (p : string) (st : State) : State :=
  mkState (delete p (files st)) (dirs st).

Inductive event : Type :=
  | EMkdir (p : string)
  | ERun (argv : list string)
  | EPrint (s : string)
  | EWrite (p : string) (content : string)
  | EPartial (p : string) (content : string).

Inductive exn : Type :=
  | FileNotFoundError (p : string)
  | JSONDecodeError
  | KeyError (k : string)
  | TypeError
  | AttributeError
  | CalledProcessError (code : Z)
  | TomlDecodeError
  | FileExistsError (p : string)
  | IsADirectoryError (p : string)
  | NotADirectoryError (p : string)
  | PermissionError (p : string).

Inductive result (A : Type) : Type :=
  | Ok (a : A)
  | Raise (e : exn).
Arguments Ok {A} a.
Arguments Raise {A} e.

(** What a computation leaves: its result, the machine, the events. *)
Record Outcome (A : Type) : Type := mkOutcome {
  res : result A;
  files_after : State;
  events : list event
}.
Arguments mkOutcome {A} _ _ _.
Arguments res {A} _.
Arguments files_after {A} _.
Arguments events {A} _.

(** State (the machine), exceptions and a log of events: an exception keeps
    the machine and the events as they were left. *)
Definition M (A : Type) : Type := State → Outcome A.

Definition ret {A} (a : A) : M A := λ fs, mkOutcome (Ok a) fs [].

Definition raise {A} (e : exn) : M A := λ fs, mkOutcome (Raise e) fs [].

Definition bind {A B} (m : M A) (k : A → M B) : M B :=
  λ fs, match m fs with
        | mkOutcome (Ok a) fs1 t1 =>
            match k a fs1 with
            | mkOutcome r fs2 t2 => mkOutcome r fs2 (t1 ++ t2)
            end
        | mkOutcome (Raise e) fs1 t1 => mkOutcome (Raise e) fs1 t1
        end.

Notation "'let!' x ':=' m 'in' k" := (bind m (λ x, k))
  (at level 10, x pattern, m at level 100, k at level 200).
Notation "m ';;;' k" := (bind m (λ _, k))
  (at level 100, k at level 200, right associativity).

Definition emit (ev : event) : M unit := λ fs, mkOutcome (Ok tt) fs [ev].

(** [print(s)] *)
Definition print (s : string) : M unit := emit (EPrint s).

(** [p.exists()] *)
Definition path_exists (p : Path.t) : M bool :=
  λ fs, mkOutcome (Ok (bool_decide (is_Some (fs !! Path.str p)))) fs [].

(** Universal newlines: a carriage return followed by a line feed, and a
    carriage return alone, are read as a line feed. *)
Fixpoint universal_newlines (s : string) : string :=
  match s with
  | EmptyString => EmptyString
  | String c s' =>
      if decide (c = "013"%char) then
        match s' with
        | String c' s'' =>
            if decide (c' = "010"%char) then String "010"%char (universal_newlines s'')
            else String "010"%char (universal_newlines s')
        | EmptyString => String "010"%char EmptyString
        end
      else String c (universal_newlines s')
  end.

(** The pieces of a text that end at a line feed, each with its line feed,
    and the rest if there is one. *)
Fixpoint split_lines (s : string) : list string :=
  match s with
  | EmptyString => []
  | String c s' =>
      if decide (c = "010"%char) then String c EmptyString :: split_lines s'
      else match split_lines s' with
           | [] => [String c EmptyString]
           | l :: ls => String c l :: ls
           end
  end.

(** The lines of a text file opened for reading. *)
Definition file_lines (s : string) : list string :=
  split_lines (universal_newlines s).

(** [v[k]] *)
Definition getitem (v : value) (k : string) : M value :=
  match v with
  | VDict d => match assoc k d with
               | Some x => ret x
               | None => raise (KeyError k)
               end
  | _ => raise TypeError
  end.

(** [v.get(k, dflt)] *)
Definition py_get (v : value) (k : string) (dflt : value) : M value :=
  match v with
  | VDict d => ret (dict_get d k dflt)
  | _ => raise AttributeError
  end.

(** An argument of a command line has to be a string. *)
Definition str_arg (v : value) : option string :=
  match v with
  | VStr s => Some s
  | _ => None
  end.

(** ** What the program calls *)

Class Env : Type := {
  (** [json.loads]: [None] stands for a line that is not valid JSON. *)
  json_loads : string → option value;
  (** [json.dump(v, f, indent=2)]: the text written for a value; for a value
      that is not serialisable, the text written before [TypeError] is
      raised. *)
  json_dumps : value → string;
  (** The parser behind [toml.load]: the top-level table of a document, or
      [None] when the text is not valid TOML. *)
  toml_loads : string → option (list (string * value));
  (** [str.lower] *)
  lower : string → string;
  (** The error [mkdir(exist_ok=True)] raises at a path, if it raises. *)
  mkdir_error : State → string → option exn;
  (** The error [open(p, 'w')] raises at a path, if it raises. *)
  open_error : State → string → option exn;
  (** The error [open(p, 'r')] raises at a path that is not a regular file:
      [FileNotFoundError] when nothing is there. *)
  read_error : State → string → exn;
  (** The process started by [subprocess.run]: from the machine and the
      command line to the exit code and the machine it leaves. *)
  subprocess_run : State → list string → Z * State
}.

(** ** The pipeline *)

Section Pipeline.

Context `{Env}.

(** [p.mkdir(exist_ok=True)] *)
Definition mkdir (p : Path.t) : M unit :=
  λ fs, match mkdir_error fs (Path.str p) with
        | Some e => mkOutcome (Raise e) fs []
        | None => mkOutcome (Ok tt) (add_dir (Path.str p) fs) [EMkdir (Path.str p)]
        end.

(** [with open(p, 'w') as f: json.dump(v, f, indent=2)]: once the file is
    open, what [json.dump] has written is in it, be it all of the text or
    the part before a value it refuses. *)
Definition write_json (p : string) (v : value) : M unit :=
  λ fs, match open_error fs p with
        | Some e => mkOutcome (Raise e) fs []
        | None =>
            if serialisable v
            then mkOutcome (Ok tt) (<[p := json_dumps v]> fs) [EWrite p (json_dumps v)]
            else mkOutcome (Raise TypeError) (<[p := json_dumps v]> fs)
                   [EPartial p (json_dumps v)]
        end.

(** [open(p, 'r')] and the lines iterated over. *)
Definition read_lines (p : string) : M (list string) :=
  λ fs, match fs !! p with
        | Some content => mkOutcome (Ok (file_lines content)) fs []
        | None => mkOutcome (Raise (read_error fs p)) fs []
        end.

(** [v.lower()] *)
Definition str_lower (v : value) : M string :=
  match v with
  | VStr s => ret (lower s)
  | _ => raise AttributeError
  end.

(** [json.loads(line)] *)
Definition parse_line (line : string) : M value :=
  match json_loads line with
  | Some v => ret v
  | None => raise JSONDecodeError
  end.

(** [subprocess.run(args, check=True)] *)
Definition run_checked (args : list value) : M unit :=
  match mapM str_arg args with
  | None => raise TypeError
  | Some argv =>
      λ fs, let '(code, fs') := subprocess_run fs argv in
            mkOutcome (if decide (code = 0) then Ok tt
                       else Raise (CalledProcessError code))
              fs' [ERun argv]
  end.

(** [toml.load(p)] *)
Definition toml_load (p : Path.t) : M (list (string * value)) :=
  λ fs, match fs !! Path.str p with
        | None => mkOutcome (Raise (read_error fs (Path.str p))) fs []
        | Some text => match toml_loads text with
                       | Some t => mkOutcome (Ok t) fs []
                       | None => mkOutcome (Raise TomlDecodeError) fs []
                       end
        end.

(** The body of the loop over the manifest (lines 27 to 70); [index] is
    the list built so far and the result is the list after [append]. *)
Definition process_line (meta_dir clone_dir : Path.t) (index : list value)
    (line : string) : M (list value) :=
  let! entry := parse_line line in
  let! lib_id := getitem entry "library_id" in
  let! repo_url := getitem entry "url" in
  let! ref := py_get entry "git_ref" (VStr "main") in
  let! lowered := str_lower lib_id in
  let target := clone_dir // lowered in
  run_checked [VStr "git"; VStr "clone"; repo_url; VStr (Path.str target)];;;
  let pyproj := target // "pyproject.toml" in
  let! found := path_exists pyproj in
  let! proj_data :=
    (if found : bool then
       let! doc := toml_load pyproj in
       ret (dict_get doc "project" (VDict []))
     else
       (* [lib_id] is a string here: [lower] has returned *)
       print ("⚠️  " +:+ match lib_id with VStr s => s | _ => "" end
                +:+ ": pyproject.toml not found, filling N/A");;;
       ret (VDict [])) in
  let! path := getitem entry "path" in
  let! version := py_get proj_data "version" (VStr "N/A") in
  let! description := py_get proj_data "description" (VStr "No description available.") in
  let! authors := py_get proj_data "authors" (VList []) in
  let! license := py_get proj_data "license" (VStr "N/A") in
  let! readme := py_get proj_data "readme" VNone in
  let! repository := py_get proj_data "repository" VNone in
  let! keywords := py_get proj_data "keywords" (VList []) in
  let! requirements := py_get proj_data "dependencies" (VList []) in
  let metadata := VDict [
    ("library_id", lib_id);
    ("path", path);
    ("url", repo_url);
    ("git_ref", ref);
    ("version", version);
    ("description", description);
    ("authors", authors);
    ("license", license);
    ("readme", readme);
    ("repository", repository);
    ("keywords", keywords);
    ("requirements", requirements)] in
  let out_file := meta_dir // (lowered +:+ ".json") in
  write_json (Path.str out_file) metadata;;;
  ret (index ++ [VDict [
    ("library_id", lib_id);
    ("path", path);
    ("metadata", VStr (Path.as_posix out_file))]]).

(** [for line in mf: ...] *)
Fixpoint for_lines (meta_dir clone_dir : Path.t) (index : list value)
    (lines : list string) : M (list value) :=
  match lines with
  | [] => ret index
  | line :: rest =>
      let! index' := process_line meta_dir clone_dir index line in
      for_lines meta_dir clone_dir index' rest
  end.

Definition build_metadata (manifest_path output_index metadata_dir clone_root : string)
    : M unit :=
  let meta_dir := Path.of_string metadata_dir in
  mkdir meta_dir;;;
  let clone_dir := Path.of_string clone_root in
  let! lines := read_lines manifest_path in
  let! index := for_lines meta_dir clone_dir [] lines in
  write_json output_index (VList index);;;
  print ("Generated " +:+ pretty (length index) +:+ " metadata files in '"
           +:+ metadata_dir +:+ "' and wrote '" +:+ output_index +:+ "'").

End Pipeline.

(** ** Vocabulary of the properties *)

(** The files written in full, in the order of the writes. *)
Fixpoint writes (t : list event) : list (string * string) :=
  match t with
  | [] => []
  | EWrite p c :: t' => (p, c) :: writes t'
  | _ :: t' => writes t'
  end.

(** The files left with a part of their text only. *)
Fixpoint partial_writes (t : list event) : list (string * string) :=
  match t with
  | [] => []
  | EPartial p c :: t' => (p, c) :: partial_writes t'
  | _ :: t' => partial_writes t'
  end.

(** The lines printed. *)
Fixpoint printed (t : list event) : list string :=
  match t with
  | [] => []
  | EPrint s :: t' => s :: printed t'
  | _ :: t' => printed t'
  end.

(** The command lines started. *)
Fixpoint commands (t : list event) : list (list string) :=
  match t with
  | [] => []
  | ERun argv :: t' => argv :: commands t'
  | _ :: t' => commands t'
  end.

(** A line of the manifest that has the fields the loop needs: an object
    with a string [library_id], a string [url] and a [path]. *)
Definition well_formed (d : list (string * value)) : bool :=
  match assoc "library_id" d, assoc "url" d, assoc "path" d with
  | Some (VStr _), Some (VStr _), Some _ => true
  | _, _, _ => false
  end.

Definition entry_id (d : list (string * value)) : string :=
  match assoc "library_id" d with
  | Some (VStr s) => s
  | _ => ""
  end.

Definition entry_url (d : list (string * value)) : string :=
  match assoc "url" d with
  | Some (VStr s) => s
  | _ => ""
  end.

Definition entry_path (d : list (string * value)) : value :=
  dict_get d "path" VNone.

(** The revision of an entry: the one of the line, or "main". *)
Definition entry_ref (d : list (string * value)) : value :=
  match assoc "git_ref" d with
  | Some r => r
  | None => VStr "main"
  end.

(** The record of an entry, given the [project] table found. *)
Definition metadata_record (d proj : list (string * value)) : value :=
  VDict [
    ("library_id", VStr (entry_id d));
    ("path", entry_path d);
    ("url", VStr (entry_url d));
    ("git_ref", entry_ref d);
    ("version", dict_get proj "version" (VStr "N/A"));
    ("description", dict_get proj "description" (VStr "No description available."));
    ("authors", dict_get proj "authors" (VList []));
    ("license", dict_get proj "license" (VStr "N/A"));
    ("readme", dict_get proj "readme" VNone);
    ("repository", dict_get proj "repository" VNone);
    ("keywords", dict_get proj "keywords" (VList []));
    ("requirements", dict_get proj "dependencies" (VList []))].

(** The record of an entry for which no project field is known. *)
Definition default_record (d : list (string * value)) : value :=
  VDict [
    ("library_id", VStr (entry_id d));
    ("path", entry_path d);
    ("url", VStr (entry_url d));
    ("git_ref", entry_ref d);
    ("version", VStr "N/A");
    ("description", VStr "No description available.");
    ("authors", VList []);
    ("license", VStr "N/A");
    ("readme", VNone);
    ("repository", VNone);
    ("keywords", VList []);
    ("requirements", VList [])].

(** The warning printed when a clone has no pyproject.toml. *)
Definition warning (id : string) : string :=
  "⚠️  " +:+ id +:+ ": pyproject.toml not found, filling N/A".

(** A name without a slash. *)
Fixpoint no_slash (s : string) : bool :=
  match s with
  | EmptyString => true
  | String c s' => negb (bool_decide (c = "/"%char)) && no_slash s'
  end.

(** A directory name of one component: no slash, not empty, not ".". *)
Definition simple_name (s : string) : bool := no_slash s && Path.is_part s.

Section Vocabulary.

Context `{Env}.

(** The directory an entry is cloned into. *)
Definition clone_target (clone_dir : Path.t) (d : list (string * value)) : Path.t :=
  clone_dir // lower (entry_id d).

Definition project_file (clone_dir : Path.t) (d : list (string * value)) : string :=
  Path.str (clone_target clone_dir d // "pyproject.toml").

(** The command line of the checkout of an entry. *)
Definition clone_command (clone_dir : Path.t) (d : list (string * value)) : list string :=
  ["git"; "clone"; entry_url d; Path.str (clone_target clone_dir d)].

(** The file of a library: the lowered identifier with the suffix ".json",
    joined to the metadata directory. *)
Definition metadata_file (meta_dir : Path.t) (id : string) : string :=
  Path.str (meta_dir // (lower id +:+ ".json")).

(** The entry of the index for a line. *)
Definition index_entry (meta_dir : Path.t) (d : list (string * value)) : value :=
  VDict [
    ("library_id", VStr (entry_id d));
    ("path", entry_path d);
    ("metadata", VStr (metadata_file meta_dir (entry_id d)))].

(** The [project] table read from a project file: [None] when there is no
    such file, when it is not valid TOML, or when its [project] entry is not
    a table. *)
Definition found_project (st : State) (pyproj : string) : option (list (string * value)) :=
  match st !! pyproj with
  | None => None
  | Some text =>
      match toml_loads text with
      | None => None
      | Some doc =>
          match dict_get doc "project" (VDict []) with
          | VDict proj => Some proj
          | _ => None
          end
      end
  end.

(** The project file, when there is one, parses and its [project] entry,
    when there is one, is a table. *)
Definition project_table_ok (st : State) (pyproj : string) : bool :=
  match st !! pyproj, found_project st pyproj with
  | Some _, None => false
  | _, _ => true
  end.

(** The machine as the checkout of an entry leaves it. *)
Definition checked_out (clone_dir : Path.t) (d : list (string * value)) (st : State)
    : State :=
  (subprocess_run st (clone_command clone_dir d)).2.

(** The record of an entry, with the project table its checkout leaves. *)
Definition record_of (clone_dir : Path.t) (d : list (string * value)) (st : State)
    : value :=
  metadata_record d
    (default [] (found_project (checked_out clone_dir d st) (project_file clone_dir d))).

(** The loop body can process a line from the given machine: the line
    parses to a well-formed entry; its checkout, started there, exits with
    0 and leaves a project file that can be read, if it leaves one; the file
    of the library can then be opened for writing; and the record holds no
    date. *)
Definition processable (meta_dir clone_dir : Path.t) (line : string)
    (d : list (string * value)) (st : State) : Prop :=
  json_loads line = Some (VDict d)
  ∧ well_formed d = true
  ∧ (subprocess_run st (clone_command clone_dir d)).1 = 0
  ∧ project_table_ok (checked_out clone_dir d st) (project_file clone_dir d) = true
  ∧ open_error (checked_out clone_dir d st) (metadata_file meta_dir (entry_id d)) = None
  ∧ serialisable (record_of clone_dir d st) = true.

(** The machine once an entry is processed: what its checkout leaves, with
    the record in the file of the library. *)
Definition after_line (meta_dir clone_dir : Path.t) (d : list (string * value))
    (st : State) : State :=
  <[metadata_file meta_dir (entry_id d) := json_dumps (record_of clone_dir d st)]>
    (checked_out clone_dir d st).

(** Every line can be processed from the machine the loop reaches it in. *)
Fixpoint all_processable (meta_dir clone_dir : Path.t) (lines : list string) (st : State)
    : Prop :=
  match lines with
  | [] => True
  | line :: rest =>
      match json_loads line with
      | Some (VDict d) =>
          processable meta_dir clone_dir line d st
          ∧ all_processable meta_dir clone_dir rest (after_line meta_dir clone_dir d st)
      | _ => False
      end
  end.

(** What the loop body does for an entry: the checkout, the warning when
    no project file was found ([proj] is [None]), the write of the record. *)
Definition line_events (meta_dir clone_dir : Path.t) (d : list (string * value))
    (proj : option (list (string * value))) : list event :=
  ERun (clone_command clone_dir d)
  :: match proj with
     | None => [EPrint (warning (entry_id d))]
     | Some _ => []
     end
  ++ [EWrite (metadata_file meta_dir (entry_id d))
        (json_dumps (metadata_record d (default [] proj)))].

(** A line parses to an object with the fields the loop needs. *)
Definition parses_to (line : string) (d : list (string * value)) : Prop :=
  json_loads line = Some (VDict d) ∧ well_formed d = true.

(** What a loop body that raises has done by then, and the machine it
    leaves.  Nothing; or the checkout of the entry of the line; or that
    checkout and the warning; or the checkout, the warning if no project file
    was found, and a part of the record: then the file of the library is
    left with that part, and the record holds a date. *)
Definition aborted (meta_dir clone_dir : Path.t) (line : string) (st : State)
    (t : list event) (st' : State) : Prop :=
  (t = [] ∧ st' = st)
  ∨ ∃ d, json_loads line = Some (VDict d)
         ∧ ((t = [ERun (clone_command clone_dir d)]
             ∨ t = [ERun (clone_command clone_dir d); EPrint (warning (entry_id d))])
            ∧ st' = checked_out clone_dir d st
            ∨ (t = ERun (clone_command clone_dir d)
                   :: match checked_out clone_dir d st !! project_file clone_dir d with
                      | None => [EPrint (warning (entry_id d))]
                      | Some _ => []
                      end
                   ++ [EPartial (metadata_file meta_dir (entry_id d))
                         (json_dumps (record_of clone_dir d st))]
               ∧ st' = after_line meta_dir clone_dir d st
               ∧ serialisable (record_of clone_dir d st) = false)).

(** *** The loop body, unfolded *)

(** [with open(p, 'w') as f: json.dump(v, f, indent=2)] after the events
    [pre], with [a] for the result of what follows. *)
Definition write_outcome {A} (p : string) (v : value) (a : A) (st : State)
    (pre : list event) : Outcome A :=
  match open_error st p with
  | Some e => mkOutcome (Raise e) st pre
  | None =>
      if serialisable v
      then mkOutcome (Ok a) (<[p := json_dumps v]> st) (pre ++ [EWrite p (json_dumps v)])
      else mkOutcome (Raise TypeError) (<[p := json_dumps v]> st)
             (pre ++ [EPartial p (json_dumps v)])
  end.

(** The loop body on an entry whose [library_id] and [url] are strings. *)
Definition line_outcome (meta_dir clone_dir : Path.t) (index : list value)
    (d : list (string * value)) (st : State) : Outcome (list value) :=
  let cmd := clone_command clone_dir d in
  let st1 := checked_out clone_dir d st in
  let written pre proj :=
    write_outcome (metadata_file meta_dir (entry_id d)) (metadata_record d proj)
      (index ++ [index_entry meta_dir d]) st1 (ERun cmd :: pre) in
  if decide ((subprocess_run st cmd).1 = 0) then
    match st1 !! project_file clone_dir d with
    | Some text =>
        match toml_loads text with
        | None => mkOutcome (Raise TomlDecodeError) st1 [ERun cmd]
        | Some doc =>
            match assoc "path" d with
            | None => mkOutcome (Raise (KeyError "path")) st1 [ERun cmd]
            | Some _ =>
                match dict_get doc "project" (VDict []) with
                | VDict proj => written [] proj
                | _ => mkOutcome (Raise AttributeError) st1 [ERun cmd]
                end
            end
        end
    | None =>
        match assoc "path" d with
        | None =>
            mkOutcome (Raise (KeyError "path")) st1
              [ERun cmd; EPrint (warning (entry_id d))]
        | Some _ => written [EPrint (warning (entry_id d))] []
        end
    end
  else mkOutcome (Raise (CalledProcessError (subprocess_run st cmd).1)) st1 [ERun cmd].

(** The end of a run whose loop has left the outcome [o]: the index is
    written and the summary printed, if the loop returned. *)
Definition run_outcome (output_index metadata_dir : string) (o : Outcome (list value))
    : Outcome unit :=
  let made := EMkdir (Path.str (Path.of_string metadata_dir)) in
  match o with
  | mkOutcome (Ok index) st1 t1 =>
      match open_error st1 output_index with
      | Some e => mkOutcome (Raise e) st1 (made :: t1)
      | None =>
          if serialisable (VList index)
          then mkOutcome (Ok tt) (<[output_index := json_dumps (VList index)]> st1)
                 (made :: t1
                  ++ [EWrite output_index (json_dumps (VList index));
                      EPrint ("Generated " +:+ pretty (length index)
                              +:+ " metadata files in '" +:+ metadata_dir
                              +:+ "' and wrote '" +:+ output_index +:+ "'")])
          else mkOutcome (Raise TypeError)
                 (<[output_index := json_dumps (VList index)]> st1)
                 (made :: t1 ++ [EPartial output_index (json_dumps (VList index))])
      end
  | mkOutcome (Raise e) st1 t1 => mkOutcome (Raise e) st1 (made :: t1)
  end.

End Vocabulary.

(** ** A reference serializer

    [Json.dumps] prints a value the way [json.dump(v, f, indent=2)] does:
    characters outside printable ASCII are escaped by code point, and the
    text stops where a date is met. *)

Module Json.

Definition dq : string := String "034"%char EmptyString.
Definition bs : string := String "092"%char EmptyString.

Definition hex_digit (n : N) : ascii :=
  if (n <? 10)%N then ascii_of_N (48 + n) else ascii_of_N (87 + n).

(** The escape of a code unit: a backslash, "u" and four digits. *)
Definition unit_escape (n : N) : string :=
  bs +:+ "u"
  +:+ String (hex_digit (n / 4096 mod 16))
        (String (hex_digit (n / 256 mod 16))
           (String (hex_digit (n / 16 mod 16))
              (String (hex_digit (n mod 16)) EmptyString))).

Fixpoint bytes_of (s : string) : list N :=
  match s with
  | EmptyString => []
  | String c s' => N_of_ascii c :: bytes_of s'
  end.

(** The code points of a UTF-8 text. *)
Fixpoint code_points (bytes : list N) : list N :=
  match bytes with
  | [] => []
  | b :: r =>
      if (b <? 192)%N then b :: code_points r
      else
        match r with
        | [] => [b]
        | b1 :: r1 =>
            if (b <? 224)%N then (b mod 32 * 64 + b1 mod 64)%N :: code_points r1
            else
              match r1 with
              | [] => [b; b1]
              | b2 :: r2 =>
                  if (b <? 240)%N
                  then (b mod 16 * 4096 + b1 mod 64 * 64 + b2 mod 64)%N :: code_points r2
                  else
                    match r2 with
                    | [] => [b; b1; b2]
                    | b3 :: r3 =>
                        (b mod 8 * 262144 + b1 mod 64 * 4096 + b2 mod 64 * 64 + b3 mod 64)%N
                        :: code_points r3
                    end
              end
        end
  end.

Definition escape (n : N) : string :=
  if (n =? 34)%N then bs +:+ dq
  else if (n =? 92)%N then bs +:+ bs
  else if (n =? 10)%N then bs +:+ "n"
  else if (n =? 13)%N then bs +:+ "r"
  else if (n =? 9)%N then bs +:+ "t"
  else if (n =? 8)%N then bs +:+ "b"
  else if (n =? 12)%N then bs +:+ "f"
  else if ((32 <=? n)%N && (n <=? 126)%N)%bool then String (ascii_of_N n) EmptyString
  else if (n <? 65536)%N then unit_escape n
  else unit_escape (55296 + (n - 65536) / 1024) +:+ unit_escape (56320 + (n - 65536) mod 1024).

Definition escape_all (s : string) : string :=
  String.concat "" (escape <$> code_points (bytes_of s)).

Definition quote (s : string) : string := dq +:+ escape_all s +:+ dq.

Fixpoint spaces (n : nat) : string :=
  match n with
  | O => EmptyString
  | S n' => String " "%char (spaces n')
  end.

Definition newline (level : nat) : string :=
  String "010"%char (spaces (2 * level)).

(** The text written for a value, and whether it is all of it. *)
Fixpoint emit_at (level : nat) (v : value) : string * bool :=
  match v with
  | VNone => ("null", true)
  | VBool true => ("true", true)
  | VBool false => ("false", true)
  | VInt n => (pretty n, true)
  | VFloat r => (r, true)
  | VStr s => (quote s, true)
  | VDate _ => ("", false)
  | VList [] => ("[]", true)
  | VList l =>
      let fix items (sep : string) (l : list value) : string * bool :=
        match l with
        | [] => ("", true)
        | x :: l' =>
            match emit_at (S level) x with
            | (t, true) =>
                match items ("," +:+ newline (S level)) l' with
                | (t', ok) => (sep +:+ t +:+ t', ok)
                end
            | (t, false) => (sep +:+ t, false)
            end
        end in
      match items (newline (S level)) l with
      | (body, true) => ("[" +:+ body +:+ newline level +:+ "]", true)
      | (body, false) => ("[" +:+ body, false)
      end
  | VDict [] => ("{}", true)
  | VDict d =>
      let fix items (sep : string) (d : list (string * value)) : string * bool :=
        match d with
        | [] => ("", true)
        | (k, x) :: d' =>
            match emit_at (S level) x with
            | (t, true) =>
                match items ("," +:+ newline (S level)) d' with
                | (t', ok) => (sep +:+ quote k +:+ ": " +:+ t +:+ t', ok)
                end
            | (t, false) => (sep +:+ quote k +:+ ": " +:+ t, false)
            end
        end in
      match items (newline (S level)) d with
      | (body, true) => ("{" +:+ body +:+ newline level +:+ "}", true)
      | (body, false) => ("{" +:+ body, false)
      end
  end.

Definition dumps (v : value) : string := (emit_at 0 v).1.

End Json.

(** ** A small environment

    [Demo] is an environment with three repositories: one without a
    pyproject.toml, one with a [project] table in it and one with a
    pyproject.toml that has no such table.  Every checkout of one of them
    succeeds, and so does every [mkdir] and every [open]. *)

Module Demo.

Definition q (s : string) : string := Json.dq +:+ s +:+ Json.dq.
Definition lf : string := String "010"%char EmptyString.

(** A manifest line from its fields. *)
Definition line_of (fields : list (string * string)) : string :=
  "{" +:+ String.concat "," (List.map (λ kv, q kv.1 +:+ ":" +:+ q kv.2) fields) +:+ "}" +:+ lf.

Definition foo_fields : list (string * string) :=
  [("library_id", "Foo"); ("path", "libs/foo"); ("url", "https://example/foo.git")].
Definition foo_line : string := line_of foo_fields.

Definition foo_pinned_fields : list (string * string) :=
  foo_fields ++ [("git_ref", "v1.0")].
Definition foo_pinned_line : string := line_of foo_pinned_fields.

Definition foo_shout_fields : list (string * string) :=
  [("library_id", "FOO"); ("path", "libs/shout"); ("url", "https://example/foo.git")].
Definition foo_shout_line : string := line_of foo_shout_fields.

Definition bar_fields : list (string * string) :=
  [("library_id", "Bar"); ("path", "libs/bar"); ("url", "https://example/bar.git");
   ("git_ref", "dev")].
Definition bar_line : string := line_of bar_fields.

Definition baz_fields : list (string * string) :=
  [("library_id", "Baz"); ("path", "libs/baz"); ("url", "https://example/baz.git")].
Definition baz_line : string := line_of baz_fields.

Definition broken_line : string := "{" +:+ q "library_id" +:+ ": " +:+ lf.

(** The entry a line parses to. *)
Definition entry (fields : list (string * string)) : list (string * value) :=
  List.map (λ kv, (kv.1, VStr kv.2)) fields.

Definition as_dict (fields : list (string * string)) : value := VDict (entry fields).

(** A parser that knows the lines above. *)
Definition json_loads (line : string) : option value :=
  as_dict <$> List.find (λ fields, bool_decide (line_of fields = line))
    [foo_fields; foo_pinned_fields; foo_shout_fields; bar_fields; baz_fields].

Definition bar_project : string :=
  "[project]" +:+ lf +:+ "version = " +:+ q "1.2.0" +:+ lf
  +:+ "description = " +:+ q "Bar components" +:+ lf.

Definition baz_project : string :=
  "[build-system]" +:+ lf +:+ "requires = [" +:+ q "setuptools" +:+ "]" +:+ lf.

(** A parser that knows the two project files above. *)
Definition toml_loads (text : string) : option (list (string * value)) :=
  if decide (text = bar_project) then
    Some [("project", VDict [("version", VStr "1.2.0");
                             ("description", VStr "Bar components")])]
  else if decide (text = baz_project) then
    Some [("build-system", VDict [("requires", VList [VStr "setuptools"])])]
  else None.

(** A checkout that knows three repositories: foo has no pyproject.toml,
    bar has one with a [project] table and baz has one without. *)
Definition subprocess_run (st : State) (argv : list string) : Z * State :=
  match argv with
  | ["git"; "clone"; url; target] =>
      let pyproj := target +:+ "/pyproject.toml" in
      if decide (url = "https://example/foo.git") then (0, remove_file pyproj st)
      else if decide (url = "https://example/bar.git") then
        (0, <[pyproj := bar_project]> st)
      else if decide (url = "https://example/baz.git") then
        (0, <[pyproj := baz_project]> st)
      else (128, st)
  | _ => (1, st)
  end.

Definition env : Env :=
  Build_Env json_loads Json.dumps toml_loads ascii_lower
    (λ _ _, None) (λ _ _, None) (λ _ p, FileNotFoundError p) subprocess_run.

Definition manifest_path : string := "xai_components_manifest.jsonl".
Definition output_index : string := "index.json".
Definition metadata_dir : string := "metadata".
Definition clone_root : string := ".clones".

(** The machine in which the manifest has the given lines. *)
Definition files_with (lines : list string) : State :=
  mkState {[ manifest_path := String.concat "" lines ]} ∅.

(** [build_metadata()] with the default arguments. *)
Definition run_from (fs : State) : Outcome unit :=
  @build_metadata env manifest_path output_index metadata_dir clone_root fs.

Definition run (lines : list string) : Outcome unit := run_from (files_with lines).

Definition meta_dir : Path.t := Path.of_string metadata_dir.
Definition clone_dir : Path.t := Path.of_string clone_root.

(** The loop body and the loop with the default directories. *)
Definition step (index : list value) (line : string) : M (list value) :=
  @process_line env meta_dir clone_dir index line.

Definition loop (index : list value) (lines : list string) : M (list value) :=
  @for_lines env meta_dir clone_dir index lines.

Definition three_lines : list string := [foo_line; bar_line; baz_line].
Definition twice_foo : list string := [foo_line; bar_line; foo_pinned_line].
Definition with_broken_line : list string := [foo_line; broken_line; baz_line].

End Demo.

(** ** An environment with faults

    [Faulty] extends [Demo] with lines that lack a field or have one of the
    wrong type, a repository that cannot be cloned, one whose pyproject.toml
    is not valid TOML and one whose [project] entry is not a table. *)

Module Faulty.

Definition q := Demo.q.
Definition lf := Demo.lf.

Definition no_id_line : string :=
  "{" +:+ q "path" +:+ ":" +:+ q "libs/x" +:+ "," +:+ q "url" +:+ ":"
  +:+ q "https://example/foo.git" +:+ "}" +:+ lf.
Definition no_id : list (string * value) :=
  [("path", VStr "libs/x"); ("url", VStr "https://example/foo.git")].

Definition no_url_line : string :=
  "{" +:+ q "library_id" +:+ ":" +:+ q "Foo" +:+ "," +:+ q "path" +:+ ":"
  +:+ q "libs/foo" +:+ "}" +:+ lf.
Definition no_url : list (string * value) :=
  [("library_id", VStr "Foo"); ("path", VStr "libs/foo")].

Definition no_path_line : string :=
  "{" +:+ q "library_id" +:+ ":" +:+ q "Foo" +:+ "," +:+ q "url" +:+ ":"
  +:+ q "https://example/foo.git" +:+ "}" +:+ lf.
Definition no_path : list (string * value) :=
  [("library_id", VStr "Foo"); ("url", VStr "https://example/foo.git")].

Definition numeric_id_line : string :=
  "{" +:+ q "library_id" +:+ ":7," +:+ q "path" +:+ ":" +:+ q "libs/x" +:+ ","
  +:+ q "url" +:+ ":" +:+ q "https://example/foo.git" +:+ "}" +:+ lf.
Definition numeric_id : list (string * value) :=
  [("library_id", VInt 7); ("path", VStr "libs/x"); ("url", VStr "https://example/foo.git")].

Definition numeric_url_line : string :=
  "{" +:+ q "library_id" +:+ ":" +:+ q "Foo" +:+ "," +:+ q "path" +:+ ":"
  +:+ q "libs/foo" +:+ "," +:+ q "url" +:+ ":7}" +:+ lf.
Definition numeric_url : list (string * value) :=
  [("library_id", VStr "Foo"); ("path", VStr "libs/foo"); ("url", VInt 7)].

Definition list_line : string := "[1]" +:+ lf.

Definition gone_fields : list (string * string) :=
  [("library_id", "Gone"); ("path", "libs/gone"); ("url", "https://example/gone.git")].
Definition gone_line : string := Demo.line_of gone_fields.

Definition garbled_fields : list (string * string) :=
  [("library_id", "Garbled"); ("path", "libs/garbled");
   ("url", "https://example/garbled.git")].
Definition garbled_line : string := Demo.line_of garbled_fields.

Definition scalar_fields : list (string * string) :=
  [("library_id", "Scalar"); ("path", "libs/scalar"); ("url", "https://example/scalar.git")].
Definition scalar_line : string := Demo.line_of scalar_fields.

Definition rooted_fields : list (string * string) :=
  [("library_id", "/Tmp/Out"); ("path", "libs/out"); ("url", "https://example/foo.git")].
Definition rooted_line : string := Demo.line_of rooted_fields.

(** A parser that knows the lines above and those of [Demo]. *)
Definition json_loads (line : string) : option value :=
  match List.find (λ p : string * value, bool_decide (p.1 = line))
          [(no_id_line, VDict no_id); (no_url_line, VDict no_url);
           (no_path_line, VDict no_path); (numeric_id_line, VDict numeric_id);
           (numeric_url_line, VDict numeric_url); (list_line, VList [VInt 1]);
           (gone_line, Demo.as_dict gone_fields);
           (garbled_line, Demo.as_dict garbled_fields);
           (scalar_line, Demo.as_dict scalar_fields);
           (rooted_line, Demo.as_dict rooted_fields)] with
  | Some p => Some p.2
  | None => Demo.json_loads line
  end.

Definition garbled_project : string := "[project" +:+ lf.
Definition scalar_project : string := "project = 1" +:+ lf.

Definition toml_loads (text : string) : option (list (string * value)) :=
  if decide (text = scalar_project) then Some [("project", VInt 1)]
  else Demo.toml_loads text.

Definition subprocess_run (st : State) (argv : list string) : Z * State :=
  match argv with
  | ["git"; "clone"; url; target] =>
      let pyproj := target +:+ "/pyproject.toml" in
      if decide (url = "https://example/garbled.git") then
        (0, <[pyproj := garbled_project]> st)
      else if decide (url = "https://example/scalar.git") then
        (0, <[pyproj := scalar_project]> st)
      else Demo.subprocess_run st argv
  | _ => Demo.subprocess_run st argv
  end.

Definition env : Env :=
  Build_Env json_loads Json.dumps toml_loads ascii_lower
    (λ _ _, None) (λ _ _, None) (λ _ p, FileNotFoundError p) subprocess_run.

(** The loop body and the run with the default arguments. *)
Definition step (index : list value) (line : string) : M (list value) :=
  @process_line env Demo.meta_dir Demo.clone_dir index line.

Definition run_from (fs : State) : Outcome unit :=
  @build_metadata env Demo.manifest_path Demo.output_index Demo.metadata_dir
    Demo.clone_root fs.

Definition run (lines : list string) : Outcome unit := run_from (Demo.files_with lines).

End Faulty.

(** ** An environment with directories and a checkout like [git clone]

    In [Posix] a directory can be made, and a file opened for writing, where
    the parent is a directory.  The checkout refuses a target that exists,
    as [git clone] refuses a directory that is not empty; otherwise it makes
    the target with the directories that lead to it, and puts the files of
    the repository and [.git/HEAD] into it.  Nothing but a checkout makes a
    clone, and nothing removes one. *)

Module Posix.

Definition lf := Demo.lf.

(** The directory a path lies in. *)
Definition parent (p : string) : string := Path.str (Path.parent (Path.of_string p)).

Definition is_dir (st : State) (p : string) : bool := bool_decide (p ∈ dirs st).

Definition is_file (st : State) (p : string) : bool := bool_decide (is_Some (st !! p)).

Definition mkdir_error (st : State) (p : string) : option exn :=
  if is_dir st p then None
  else if is_file st p then Some (FileExistsError p)
  else if is_dir st (parent p) then None
  else if is_file st (parent p) then Some (NotADirectoryError p)
  else Some (FileNotFoundError p).

Definition open_error (st : State) (p : string) : option exn :=
  if is_dir st p then Some (IsADirectoryError p)
  else if is_dir st (parent p) then None
  else if is_file st (parent p) then Some (NotADirectoryError p)
  else Some (FileNotFoundError p).

Definition read_error (st : State) (p : string) : exn :=
  if is_dir st p then IsADirectoryError p else FileNotFoundError p.

(** A path and the directories that lead to it. *)
Definition leading (p : string) : list string :=
  let q := Path.of_string p in
  (λ k, Path.str (Path.mk (Path.root q) (take k (Path.parts q))))
    <$> seq 1 (length (Path.parts q)).

Definition orglib_fields : list (string * string) :=
  [("library_id", "Org/Lib"); ("path", "libs/orglib"); ("url", "https://example/orglib.git")].
Definition orglib_line : string := Demo.line_of orglib_fields.

Definition dated_fields : list (string * string) :=
  [("library_id", "Dated"); ("path", "libs/dated"); ("url", "https://example/dated.git")].
Definition dated_line : string := Demo.line_of dated_fields.

Definition dated_project : string :=
  "[project]" +:+ lf +:+ "version = 2024-01-01" +:+ lf.

(** A parser that knows the two lines above and those of [Faulty]. *)
Definition json_loads (line : string) : option value :=
  if decide (line = orglib_line) then Some (Demo.as_dict orglib_fields)
  else if decide (line = dated_line) then Some (Demo.as_dict dated_fields)
  else Faulty.json_loads line.

Definition toml_loads (text : string) : option (list (string * value)) :=
  if decide (text = dated_project) then
    Some [("project", VDict [("version", VDate "2024-01-01")])]
  else Faulty.toml_loads text.

(** The files of the repositories, by URL. *)
Definition repository (url : string) : option (list (string * string)) :=
  if decide (url = "https://example/foo.git") then Some []
  else if decide (url = "https://example/orglib.git") then Some []
  else if decide (url = "https://example/bar.git") then
    Some [("pyproject.toml", Demo.bar_project)]
  else if decide (url = "https://example/baz.git") then
    Some [("pyproject.toml", Demo.baz_project)]
  else if decide (url = "https://example/garbled.git") then
    Some [("pyproject.toml", Faulty.garbled_project)]
  else if decide (url = "https://example/scalar.git") then
    Some [("pyproject.toml", Faulty.scalar_project)]
  else if decide (url = "https://example/dated.git") then
    Some [("pyproject.toml", dated_project)]
  else None.

Definition subprocess_run (st : State) (argv : list string) : Z * State :=
  match argv with
  | ["git"; "clone"; url; target] =>
      if is_dir st target || is_file st target then (128, st)
      else
        match repository url with
        | None => (128, st)
        | Some tree =>
            (0, mkState
                  (list_to_map
                     ((λ f : string * string, (target +:+ "/" +:+ f.1, f.2))
                        <$> ((".git/HEAD", "ref: refs/heads/main" +:+ lf) :: tree))
                   ∪ files st)
                  (list_to_set ((target +:+ "/.git") :: leading target) ∪ dirs st))
        end
  | _ => (1, st)
  end.

Definition env : Env :=
  Build_Env json_loads Json.dumps toml_loads ascii_lower
    mkdir_error open_error read_error subprocess_run.

(** The machine in which the manifest has the given lines, in a working
    directory that holds nothing else. *)
Definition start (lines : list string) : State :=
  mkState {[ Demo.manifest_path := String.concat "" lines ]} {[ "."; "/" ]}.

(** [build_metadata()] with the default arguments. *)
Definition run_from (st : State) : Outcome unit :=
  @build_metadata env Demo.manifest_path Demo.output_index Demo.metadata_dir
    Demo.clone_root st.

Definition run (lines : list string) : Outcome unit := run_from (start lines).

Definition step (index : list value) (line : string) : M (list value) :=
  @process_line env Demo.meta_dir Demo.clone_dir index line.

Definition loop (index : list value) (lines : list string) : M (list value) :=
  @for_lines env Demo.meta_dir Demo.clone_dir index lines.

(** The machine once the metadata directory is made. *)
Definition ready (lines : list string) : State := add_dir "metadata" (start lines).

Fixpoint starts_with (prefix s : string) : bool :=
  match prefix, s with
  | EmptyString, _ => true
  | String c p', String c' s' => bool_decide (c = c') && starts_with p' s'
  | String _ _, EmptyString => false
  end.

(** A path lies under a directory, or is it. *)
Definition under (root p : string) : bool :=
  bool_decide (p = root) || starts_with (root +:+ "/") p.

(** [shutil.rmtree(root)] *)
Definition rmtree (root : string) (st : State) : State :=
  mkState (filter (λ kv, under root kv.1 = false) (files st))
          (filter (λ p, under root p = false) (dirs st)).

End Posix.

(** ** Basic facts *)

Lemma writes_app (t t' : list event) : writes (t ++ t') = writes t ++ writes t'.
Proof.
  induction t as [|ev t IH]; [reflexivity|].
  destruct ev; simpl; rewrite IH; reflexivity.
Qed.

Lemma printed_app (t t' : list event) : printed (t ++ t') = printed t ++ printed t'.
Proof.
  induction t as [|ev t IH]; [reflexivity|].
  destruct ev; simpl; rewrite IH; reflexivity.
Qed.

Lemma commands_app (t t' : list event) :
  commands (t ++ t') = commands t ++ commands t'.
Proof.
  induction t as [|ev t IH]; [reflexivity|].
  destruct ev; simpl; rewrite IH; reflexivity.
Qed.

Lemma bind_ok {A B} (m : M A) (k : A → M B) fs fs' t (a : A) :
  m fs = mkOutcome (Ok a) fs' t →
  bind m k fs
  = mkOutcome (res (k a fs')) (files_after (k a fs')) (t ++ events (k a fs')).
Proof. intros H. unfold bind. rewrite H. destruct (k a fs'). reflexivity. Qed.

Lemma bind_raise {A B} (m : M A) (k : A → M B) fs fs' t (e : exn) :
  m fs = mkOutcome (Raise e) fs' t → bind m k fs = mkOutcome (Raise e) fs' t.
Proof. intros H. unfold bind. rewrite H. reflexivity. Qed.

Lemma lookup_written (st : State) (p content : string) :
  (<[p := content]> st) !! p = Some content.
Proof. apply (lookup_insert_eq (files st)). Qed.

Lemma lookup_removed (st : State) (p : string) : remove_file p st !! p = None.
Proof. apply (lookup_delete_eq (files st)). Qed.

Lemma lookup_add_dir (st : State) (d p : string) : add_dir d st !! p = st !! p.
Proof. reflexivity. Qed.

Lemma well_formed_fields (d : list (string * value)) :
  well_formed d = true →
  assoc "library_id" d = Some (VStr (entry_id d))
  ∧ assoc "url" d = Some (VStr (entry_url d))
  ∧ assoc "path" d = Some (entry_path d).
Proof.
  unfold well_formed, entry_id, entry_url, entry_path, dict_get.
  destruct (assoc "library_id" d) as [[]|]; try discriminate.
  destruct (assoc "url" d) as [[]|]; try discriminate.
  destruct (assoc "path" d); try discriminate.
  auto.
Qed.

Lemma assoc_metadata_record_git_ref (d proj : list (string * value)) :
  ∃ record, metadata_record d proj = VDict record
            ∧ assoc "git_ref" record = Some (entry_ref d).
Proof. eexists. split; reflexivity. Qed.

Lemma default_record_eq d : metadata_record d [] = default_record d.
Proof. reflexivity. Qed.

(** A record that can be serialised has a [path] that can. *)
Lemma serialisable_record_path (d proj : list (string * value)) :
  serialisable (metadata_record d proj) = true → serialisable (entry_path d) = true.
Proof.
  simpl. intros Hser. apply andb_true_iff in Hser as [Hpath _]. exact Hpath.
Qed.

Section Properties.

Context `{Env}.

Ltac run_body :=
  unfold process_line, parse_line, bind, ret, raise, getitem, py_get, str_lower,
    run_checked, path_exists, toml_load, print, emit, write_json.

Lemma process_line_entry meta_dir clone_dir index line d id url st :
  json_loads line = Some (VDict d) →
  assoc "library_id" d = Some (VStr id) →
  assoc "url" d = Some (VStr url) →
  process_line meta_dir clone_dir index line st
  = line_outcome meta_dir clone_dir index d st.
Proof.
  intros Hparse Hid Hurl.
  run_body.
  unfold line_outcome, write_outcome, checked_out, project_file, clone_command,
    clone_target, index_entry, metadata_file, metadata_record, entry_id, entry_url,
    entry_path, entry_ref, warning, dict_get.
  rewrite Hparse, Hid, Hurl. simpl.
  destruct (subprocess_run st _) as [code st1]. simpl.
  destruct (decide (code = 0)) as [->|]; [|reflexivity]. simpl.
  destruct (st1 !! _) as [text|] eqn:Hlook; simpl.
  - rewrite ?Hlook. destruct (toml_loads text) as [doc|]; [|reflexivity]. simpl.
    destruct (assoc "path" d) as [path|]; [|reflexivity]. simpl.
    destruct (assoc "project" doc) as [[| | | | | |proj|]|]; simpl; try reflexivity.
    + destruct (open_error st1 _); [reflexivity|].
      destruct (assoc "git_ref" d); simpl;
        match goal with |- context [if ?b then _ else _] => destruct b end; reflexivity.
    + destruct (open_error st1 _); [reflexivity|].
      destruct (assoc "git_ref" d); simpl;
        match goal with |- context [if ?b then _ else _] => destruct b end; reflexivity.
  - destruct (assoc "path" d) as [path|]; [|reflexivity]. simpl.
    destruct (open_error st1 _); [reflexivity|].
    destruct (assoc "git_ref" d); simpl;
      match goal with |- context [if ?b then _ else _] => destruct b end; reflexivity.
Qed.


(** The loop body stops before the checkout, or goes on with the entry of
    the line. *)
Lemma process_line_cases meta_dir clone_dir index line st :
  (∃ e, process_line meta_dir clone_dir index line st = mkOutcome (Raise e) st [])
  ∨ ∃ d, json_loads line = Some (VDict d)
         ∧ (∃ id, assoc "library_id" d = Some (VStr id))
         ∧ (∃ url, assoc "url" d = Some (VStr url))
         ∧ process_line meta_dir clone_dir index line st
           = line_outcome meta_dir clone_dir index d st.
Proof.
  destruct (json_loads line) as [v|] eqn:Hparse;
    [|left; eexists; run_body; rewrite Hparse; reflexivity].
  destruct v as [| | | | | |d|];
    try (left; eexists; run_body; rewrite Hparse; reflexivity).
  destruct (assoc "library_id" d) as [lib_id|] eqn:Hid;
    [|left; eexists; run_body; rewrite Hparse, Hid; reflexivity].
  destruct (assoc "url" d) as [repo_url|] eqn:Hurl;
    [|left; eexists; run_body; rewrite Hparse, Hid, Hurl; reflexivity].
  destruct lib_id as [| | | |id| | |];
    try (left; eexists; run_body; rewrite Hparse, Hid, Hurl; reflexivity).
  destruct repo_url as [| | | |url| | |];
    try (left; eexists; run_body; rewrite Hparse, Hid, Hurl; reflexivity).
  right. exists d. split; [reflexivity|]. split; [eauto|]. split; [eauto|].
  eapply process_line_entry; eassumption.
Qed.

Lemma project_table_ok_found st pyproj :
  project_table_ok st pyproj = true →
  match st !! pyproj with
  | None => found_project st pyproj = None
  | Some text =>
      ∃ doc proj, toml_loads text = Some doc
                  ∧ dict_get doc "project" (VDict []) = VDict proj
                  ∧ found_project st pyproj = Some proj
  end.
Proof.
  unfold project_table_ok, found_project.
  destruct (st !! pyproj) as [text|]; [|reflexivity].
  destruct (toml_loads text) as [doc|]; [|discriminate].
  destruct (dict_get doc "project" (VDict [])) as [| | | | | |proj|] eqn:Hproj;
    try discriminate.
  intros _. exists doc, proj. auto.
Qed.

(** The loop body on a line that it can process. *)
Lemma process_line_ok meta_dir clone_dir index line d st :
  processable meta_dir clone_dir line d st →
  process_line meta_dir clone_dir index line st
  = mkOutcome (Ok (index ++ [index_entry meta_dir d]))
      (after_line meta_dir clone_dir d st)
      (line_events meta_dir clone_dir d
         (found_project (checked_out clone_dir d st) (project_file clone_dir d))).
Proof.
  intros (Hparse & Hwf & Hcode & Htable & Hopen & Hser).
  destruct (well_formed_fields d Hwf) as (Hid & Hurl & Hpath).
  rewrite (process_line_entry _ _ _ _ _ _ _ _ Hparse Hid Hurl).
  unfold line_outcome, write_outcome, after_line, line_events.
  unfold record_of in Hser |- *.
  destruct (decide _) as [_|Hne]; [|destruct (Hne Hcode)].
  apply project_table_ok_found in Htable.
  rewrite Hpath, Hopen.
  destruct (checked_out clone_dir d st !! project_file clone_dir d) as [text|].
  - destruct Htable as (doc & proj & -> & -> & Hfound). rewrite Hfound in Hser |- *.
    simpl default in Hser |- *. rewrite Hser. reflexivity.
  - rewrite Htable in Hser |- *. simpl default in Hser |- *. rewrite Hser. reflexivity.
Qed.

(** The loop body returns normally on the lines it can process only. *)
Lemma process_line_returns meta_dir clone_dir index line st index' :
  res (process_line meta_dir clone_dir index line st) = Ok index' →
  ∃ d, processable meta_dir clone_dir line d st.
Proof.
  intros Hres.
  destruct (process_line_cases meta_dir clone_dir index line st)
    as [[e Heq] | (d & Hparse & [id Hid] & [url Hurl] & Heq)];
    rewrite Heq in Hres; [discriminate Hres|].
  exists d. unfold processable, record_of, project_table_ok, found_project.
  unfold line_outcome, write_outcome in Hres.
  destruct (decide _) as [Hcode|]; [|discriminate Hres].
  assert (Hwf : assoc "path" d ≠ None → well_formed d = true).
  { unfold well_formed. rewrite Hid, Hurl. destruct (assoc "path" d); [reflexivity|].
    intros Hp. destruct (Hp eq_refl). }
  destruct (checked_out clone_dir d st !! project_file clone_dir d) as [text|].
  - destruct (toml_loads text) as [doc|]; [|discriminate Hres].
    destruct (assoc "path" d) as [path|]; [|discriminate Hres].
    destruct (dict_get doc "project" (VDict [])) as [| | | | | |proj|];
      try discriminate Hres.
    destruct (open_error _ _); [discriminate Hres|].
    simpl default.
    destruct (serialisable (metadata_record d proj)); [|discriminate Hres].
    repeat split; auto.
  - destruct (assoc "path" d) as [path|]; [|discriminate Hres].
    destruct (open_error _ _); [discriminate Hres|].
    simpl default.
    destruct (serialisable (metadata_record d [])); [|discriminate Hres].
    repeat split; auto.
Qed.

(** A loop body that raises has written no file in full. *)
Lemma process_line_raises meta_dir clone_dir index line st e :
  res (process_line meta_dir clone_dir index line st) = Raise e →
  writes (events (process_line meta_dir clone_dir index line st)) = []
  ∧ aborted meta_dir clone_dir line st
      (events (process_line meta_dir clone_dir index line st))
      (files_after (process_line meta_dir clone_dir index line st)).
Proof.
  intros Hres.
  destruct (process_line_cases meta_dir clone_dir index line st)
    as [[e' Heq] | (d & Hparse & [id Hid] & [url Hurl] & Heq)];
    rewrite Heq in Hres |- *.
  { split; [reflexivity|]. left. split; reflexivity. }
  assert (Hstop : ∀ e0,
            aborted meta_dir clone_dir line st [ERun (clone_command clone_dir d)]
              (files_after (mkOutcome (Raise e0 : result (list value))
                              (checked_out clone_dir d st) []))).
  { intros e0. right. exists d. split; [exact Hparse|]. left. split; [left|]; reflexivity. }
  assert (Hwarn : ∀ e0,
            aborted meta_dir clone_dir line st
              [ERun (clone_command clone_dir d); EPrint (warning (entry_id d))]
              (files_after (mkOutcome (Raise e0 : result (list value))
                              (checked_out clone_dir d st) []))).
  { intros e0. right. exists d. split; [exact Hparse|]. left. split; [right|]; reflexivity. }
  unfold line_outcome, write_outcome in Hres |- *.
  destruct (decide _) as [Hcode|]; [|split; [reflexivity | apply (Hstop e)]].
  destruct (checked_out clone_dir d st !! project_file clone_dir d) as [text|] eqn:Hlook.
  - destruct (toml_loads text) as [doc|] eqn:Htoml; [|split; [reflexivity | apply (Hstop e)]].
    destruct (assoc "path" d) as [path|]; [|split; [reflexivity | apply (Hstop e)]].
    destruct (dict_get doc "project" (VDict [])) as [| | | | | |proj|] eqn:Hproj;
      try (split; [reflexivity | apply (Hstop e)]).
    destruct (open_error _ _); [split; [reflexivity | apply (Hstop e)]|].
    destruct (serialisable (metadata_record d proj)) eqn:Hser; [discriminate Hres|].
    split; [reflexivity|]. right. exists d. split; [exact Hparse|]. right.
    unfold after_line, record_of, found_project. rewrite Hlook, Htoml, Hproj.
    simpl default. auto.
  - destruct (assoc "path" d) as [path|]; [|split; [reflexivity | apply (Hwarn e)]].
    destruct (open_error _ _); [split; [reflexivity | apply (Hwarn e)]|].
    destruct (serialisable (metadata_record d [])) eqn:Hser; [discriminate Hres|].
    split; [reflexivity|]. right. exists d. split; [exact Hparse|]. right.
    unfold after_line, record_of, found_project. rewrite Hlook.
    simpl default. auto.
Qed.

Lemma writes_line_events meta_dir clone_dir d proj :
  writes (line_events meta_dir clone_dir d proj)
  = [(metadata_file meta_dir (entry_id d),
      json_dumps (metadata_record d (default [] proj)))].
Proof. destruct proj; reflexivity. Qed.

Lemma commands_line_events meta_dir clone_dir d proj :
  commands (line_events meta_dir clone_dir d proj) = [clone_command clone_dir d].
Proof. destruct proj; reflexivity. Qed.

Lemma printed_line_events meta_dir clone_dir d proj :
  printed (line_events meta_dir clone_dir d proj)
  = match proj with
    | None => [warning (entry_id d)]
    | Some _ => []
    end.
Proof. destruct proj; reflexivity. Qed.

Lemma processable_parses_to meta_dir clone_dir line d st :
  processable meta_dir clone_dir line d st → parses_to line d.
Proof. intros (Hparse & Hwf & _). split; assumption. Qed.

Lemma processable_path meta_dir clone_dir line d st :
  processable meta_dir clone_dir line d st → serialisable (entry_path d) = true.
Proof.
  intros (_ & _ & _ & _ & _ & Hser). exact (serialisable_record_path _ _ Hser).
Qed.

(** The index of entries whose [path] can be serialised can be. *)
Lemma serialisable_index meta_dir ds :
  Forall (λ d, serialisable (entry_path d) = true) ds →
  serialisable (VList (index_entry meta_dir <$> ds)) = true.
Proof.
  intros Hds. change (forallb serialisable (index_entry meta_dir <$> ds) = true).
  induction Hds as [|d ds Hd _ IH]; [reflexivity|].
  change (serialisable (index_entry meta_dir d)
          && forallb serialisable (index_entry meta_dir <$> ds) = true).
  rewrite IH. unfold index_entry. simpl. rewrite Hd. reflexivity.
Qed.

(** The loop over two lists of lines, one after the other. *)
Lemma for_lines_app meta_dir clone_dir lines lines' : ∀ index st,
  for_lines meta_dir clone_dir index (lines ++ lines') st
  = bind (for_lines meta_dir clone_dir index lines)
      (λ index', for_lines meta_dir clone_dir index' lines') st.
Proof.
  induction lines as [|line lines IH]; intros index st.
  - unfold bind. simpl.
    destruct (for_lines meta_dir clone_dir index lines' st); reflexivity.
  - simpl. unfold bind.
    destruct (process_line meta_dir clone_dir index line st) as [[index1|e] st1 t1];
      [|reflexivity].
    rewrite IH. unfold bind.
    destruct (for_lines meta_dir clone_dir index1 lines st1) as [[index2|e] st2 t2];
      [|reflexivity].
    destruct (for_lines meta_dir clone_dir index2 lines' st2) as [r st3 t3].
    rewrite app_assoc. reflexivity.
Qed.

(** The loop, whatever the lines and the environment: the lines are
    processed in order up to the first one that raises, if any; each record
    is in its file when its line is done. *)
Lemma for_lines_cases meta_dir clone_dir lines : ∀ index st,
  ∃ ds projs t,
    events (for_lines meta_dir clone_dir index lines st)
    = mjoin (zip_with (line_events meta_dir clone_dir) ds projs) ++ t
    ∧ length projs = length ds
    ∧ Forall2 parses_to (take (length ds) lines) ds
    ∧ Forall (λ d, serialisable (entry_path d) = true) ds
    ∧ (∀ j d proj, ds !! j = Some d → projs !! j = Some proj →
         files_after (for_lines meta_dir clone_dir index (take (S j) lines) st)
           !! metadata_file meta_dir (entry_id d)
         = Some (json_dumps (metadata_record d (default [] proj))))
    ∧ match res (for_lines meta_dir clone_dir index lines st) with
      | Ok index' =>
          length ds = length lines ∧ t = []
          ∧ index' = index ++ (index_entry meta_dir <$> ds)
      | Raise e =>
          ∃ bad, lines !! length ds = Some bad
                 ∧ writes t = []
                 ∧ aborted meta_dir clone_dir bad
                     (files_after (for_lines meta_dir clone_dir index
                                     (take (length ds) lines) st))
                     t (files_after (for_lines meta_dir clone_dir index lines st))
      end.
Proof.
  induction lines as [|line lines IH]; intros index st.
  - exists [], [], []. simpl. rewrite app_nil_r.
    repeat split; try constructor. intros j d proj Hd. discriminate Hd.
  - destruct (res (process_line meta_dir clone_dir index line st)) as [index1|e] eqn:Hres.
    + destruct (process_line_returns _ _ _ _ _ _ Hres) as [d Hd].
      pose proof (process_line_ok meta_dir clone_dir index line d st Hd) as Hstep.
      destruct (IH (index ++ [index_entry meta_dir d]) (after_line meta_dir clone_dir d st))
        as (ds & projs & t & Hev & Hlen & Hparse & Hpaths & Hfiles & Hcase).
      exists (d :: ds),
        (found_project (checked_out clone_dir d st) (project_file clone_dir d) :: projs), t.
      assert (Htake : ∀ n,
                for_lines meta_dir clone_dir index (line :: take n lines) st
                = mkOutcome
                    (res (for_lines meta_dir clone_dir (index ++ [index_entry meta_dir d])
                            (take n lines) (after_line meta_dir clone_dir d st)))
                    (files_after (for_lines meta_dir clone_dir
                            (index ++ [index_entry meta_dir d])
                            (take n lines) (after_line meta_dir clone_dir d st)))
                    (line_events meta_dir clone_dir d
                       (found_project (checked_out clone_dir d st)
                          (project_file clone_dir d))
                     ++ events (for_lines meta_dir clone_dir
                                  (index ++ [index_entry meta_dir d])
                                  (take n lines) (after_line meta_dir clone_dir d st)))).
      { intros n. cbn [for_lines]. erewrite bind_ok by exact Hstep. reflexivity. }
      pose proof (Htake (length lines)) as Hall. rewrite firstn_all in Hall.
      rewrite Hall. cbn [res events files_after].
      split; [cbn [zip_with mjoin list_join]; rewrite Hev, <- app_assoc; reflexivity|].
      split; [simpl; congruence|].
      split.
      { simpl. constructor; [exact (processable_parses_to _ _ _ _ _ Hd) | exact Hparse]. }
      split; [constructor; [exact (processable_path _ _ _ _ _ Hd) | exact Hpaths]|].
      split.
      { intros [|j] d' proj' Hd' Hproj'; simpl in Hd', Hproj'.
        - inversion Hd'; inversion Hproj'; subst.
          change (take 1 (line :: lines)) with (line :: take 0 lines).
          rewrite Htake. cbn [take for_lines ret files_after].
          apply lookup_written.
        - change (take (S (S j)) (line :: lines)) with (line :: take (S j) lines).
          rewrite Htake. cbn [files_after]. apply Hfiles; assumption. }
      destruct (res (for_lines meta_dir clone_dir (index ++ [index_entry meta_dir d]) lines
                       (after_line meta_dir clone_dir d st))) as [index'|e].
      * destruct Hcase as (Hn & -> & ->). simpl.
        rewrite <- app_assoc. repeat split; congruence.
      * destruct Hcase as (bad & Hbad & Hw & Hab). exists bad.
        split; [exact Hbad|]. split; [exact Hw|].
        change (take (length (d :: ds)) (line :: lines))
          with (line :: take (length ds) lines).
        rewrite Htake. cbn [files_after]. exact Hab.
    + destruct (process_line_raises _ _ _ _ _ _ Hres) as [Hw Hab].
      exists [], [], (events (process_line meta_dir clone_dir index line st)).
      cbn [for_lines]. unfold bind.
      destruct (process_line meta_dir clone_dir index line st) as [r st1 t1].
      cbn [res events files_after] in Hres, Hw, Hab |- *. subst r.
      cbn [res events files_after]. repeat split; try constructor.
      { intros j d proj Hd. discriminate Hd. }
      exists line. auto.
Qed.

(** The loop over lines that can all be processed returns. *)
Lemma for_lines_returns meta_dir clone_dir lines : ∀ index st,
  all_processable meta_dir clone_dir lines st →
  ∃ index', res (for_lines meta_dir clone_dir index lines st) = Ok index'.
Proof.
  induction lines as [|line lines IH]; intros index st Hall.
  - exists index. reflexivity.
  - simpl in Hall.
    destruct (json_loads line) as [[| | | | | |d|]|]; try contradiction.
    destruct Hall as [Hd Hrest].
    cbn [for_lines].
    erewrite bind_ok by exact (process_line_ok meta_dir clone_dir index line d st Hd).
    cbn [res]. apply IH. exact Hrest.
Qed.

Lemma writes_loop_events meta_dir clone_dir ds : ∀ projs,
  writes (mjoin (zip_with (line_events meta_dir clone_dir) ds projs))
  = zip_with (λ d proj, (metadata_file meta_dir (entry_id d),
                          json_dumps (metadata_record d (default [] proj)))) ds projs.
Proof.
  induction ds as [|d ds IH]; intros [|proj projs]; try reflexivity.
  cbn [zip_with mjoin list_join].
  rewrite writes_app, writes_line_events, IH. reflexivity.
Qed.

Lemma commands_loop_events meta_dir clone_dir ds : ∀ projs,
  length projs = length ds →
  commands (mjoin (zip_with (line_events meta_dir clone_dir) ds projs))
  = clone_command clone_dir <$> ds.
Proof.
  induction ds as [|d ds IH]; intros [|proj projs] Hlen; try discriminate Hlen;
    [reflexivity|].
  cbn [zip_with mjoin list_join]. rewrite commands_app, IH by (simpl in Hlen; lia).
  destruct proj; reflexivity.
Qed.

Lemma printed_loop_events meta_dir clone_dir ds : ∀ projs,
  Forall (λ s, ∃ d, d ∈ ds ∧ s = warning (entry_id d))
    (printed (mjoin (zip_with (line_events meta_dir clone_dir) ds projs))).
Proof.
  induction ds as [|d ds IH]; intros [|proj projs]; try constructor.
  cbn [zip_with mjoin list_join]. rewrite printed_app. apply Forall_app. split.
  - destruct proj; simpl; [apply Forall_nil_2|].
    apply Forall_cons_2; [|apply Forall_nil_2]. exists d. split; [left | reflexivity].
  - eapply Forall_impl; [apply IH|]. intros s (d' & Hd' & ->).
    exists d'. split; [right; exact Hd' | reflexivity].
Qed.

(** The run in terms of its loop. *)
Lemma build_metadata_loop manifest_path output_index metadata_dir clone_root st content :
  mkdir_error st (Path.str (Path.of_string metadata_dir)) = None →
  st !! manifest_path = Some content →
  build_metadata manifest_path output_index metadata_dir clone_root st
  = run_outcome output_index metadata_dir
      (for_lines (Path.of_string metadata_dir) (Path.of_string clone_root) []
         (file_lines content) (add_dir (Path.str (Path.of_string metadata_dir)) st)).
Proof.
  intros Hmk Hfile.
  unfold build_metadata, bind, mkdir, emit, read_lines, write_json, run_outcome, print.
  rewrite Hmk, lookup_add_dir, Hfile.
  destruct (for_lines (Path.of_string metadata_dir) (Path.of_string clone_root) []
              (file_lines content) _) as [[index|e] st1 t1]; [|reflexivity].
  destruct (open_error st1 output_index) as [e|].
  { cbn. rewrite !app_nil_r. reflexivity. }
  destruct (serialisable (VList index)); cbn; rewrite ?app_nil_r, <- ?app_assoc;
    reflexivity.
Qed.

(** A run whose [mkdir] fails has done nothing. *)
Lemma build_metadata_no_dir manifest_path output_index metadata_dir clone_root st e :
  mkdir_error st (Path.str (Path.of_string metadata_dir)) = Some e →
  build_metadata manifest_path output_index metadata_dir clone_root st
  = mkOutcome (Raise e) st [].
Proof. intros Hmk. unfold build_metadata, bind, mkdir. rewrite Hmk. reflexivity. Qed.

(** A run that finds no manifest has made the directory only. *)
Lemma build_metadata_no_manifest manifest_path output_index metadata_dir clone_root st :
  mkdir_error st (Path.str (Path.of_string metadata_dir)) = None →
  st !! manifest_path = None →
  build_metadata manifest_path output_index metadata_dir clone_root st
  = mkOutcome
      (Raise (read_error (add_dir (Path.str (Path.of_string metadata_dir)) st)
                manifest_path))
      (add_dir (Path.str (Path.of_string metadata_dir)) st)
      [EMkdir (Path.str (Path.of_string metadata_dir))].
Proof.
  intros Hmk Hfile. unfold build_metadata, bind, mkdir, read_lines.
  rewrite Hmk, lookup_add_dir, Hfile. reflexivity.
Qed.

Lemma serialisable_assoc (d : list (string * value)) (k : string) (v : value) :
  serialisable (VDict d) = true → assoc k d = Some v → serialisable v = true.
Proof.
  change (serialisable (VDict d))
    with (forallb (λ kv : string * value, match kv with (_, x) => serialisable x end) d).
  induction d as [|[k' x] d IH]; [discriminate 2|].
  simpl. intros Hser Hk. apply andb_true_iff in Hser as [Hx Hd].
  destruct (decide (k' = k)); [injection Hk as <-; exact Hx | exact (IH Hd Hk)].
Qed.

Lemma serialisable_dict_get (d : list (string * value)) (k : string) (dflt : value) :
  serialisable (VDict d) = true → serialisable dflt = true →
  serialisable (dict_get d k dflt) = true.
Proof.
  intros Hd Hdflt. unfold dict_get.
  destruct (assoc k d) as [v|] eqn:Hk; [exact (serialisable_assoc d k v Hd Hk) | exact Hdflt].
Qed.

(** The record of an entry that holds no date, with a project table that
    holds none, can be serialised. *)
Lemma serialisable_metadata_record (d proj : list (string * value)) :
  serialisable (VDict d) = true → serialisable (VDict proj) = true →
  serialisable (metadata_record d proj) = true.
Proof.
  intros Hd Hproj.
  assert (Href : serialisable (entry_ref d) = true).
  { exact (serialisable_dict_get d "git_ref" (VStr "main") Hd eq_refl). }
  assert (Hpath : serialisable (entry_path d) = true).
  { exact (serialisable_dict_get d "path" VNone Hd eq_refl). }
  pose proof (λ k dflt, serialisable_dict_get proj k dflt Hproj) as Hget.
  unfold metadata_record. cbn [serialisable forallb].
  rewrite Hpath, Href.
  rewrite (Hget "version" (VStr "N/A") eq_refl),
    (Hget "description" (VStr "No description available.") eq_refl),
    (Hget "authors" (VList []) eq_refl), (Hget "license" (VStr "N/A") eq_refl),
    (Hget "readme" VNone eq_refl), (Hget "repository" VNone eq_refl),
    (Hget "keywords" (VList []) eq_refl), (Hget "dependencies" (VList []) eq_refl).
  reflexivity.
Qed.

(** A well-formed entry whose checkout exits with 0 and leaves no project
    file can be processed, if its file can be opened and it holds no date. *)
Lemma processable_absent meta_dir clone_dir line d st :
  json_loads line = Some (VDict d) →
  well_formed d = true →
  (subprocess_run st (clone_command clone_dir d)).1 = 0 →
  checked_out clone_dir d st !! project_file clone_dir d = None →
  open_error (checked_out clone_dir d st) (metadata_file meta_dir (entry_id d)) = None →
  serialisable (VDict d) = true →
  processable meta_dir clone_dir line d st
  ∧ found_project (checked_out clone_dir d st) (project_file clone_dir d) = None.
Proof.
  intros Hparse Hwf Hcode Habsent Hopen Hser.
  assert (Hfound : found_project (checked_out clone_dir d st) (project_file clone_dir d)
                   = None).
  { unfold found_project. rewrite Habsent. reflexivity. }
  split; [|exact Hfound].
  repeat split; try assumption.
  - unfold project_table_ok. rewrite Habsent. reflexivity.
  - unfold record_of. rewrite Hfound. apply serialisable_metadata_record; [exact Hser|].
    reflexivity.
Qed.

(** The same with a project file that parses to a document whose [project]
    entry is the table [proj]. *)
Lemma processable_present meta_dir clone_dir line d st text doc proj :
  json_loads line = Some (VDict d) →
  well_formed d = true →
  (subprocess_run st (clone_command clone_dir d)).1 = 0 →
  checked_out clone_dir d st !! project_file clone_dir d = Some text →
  toml_loads text = Some doc →
  dict_get doc "project" (VDict []) = VDict proj →
  open_error (checked_out clone_dir d st) (metadata_file meta_dir (entry_id d)) = None →
  serialisable (VDict d) = true →
  serialisable (VDict proj) = true →
  processable meta_dir clone_dir line d st
  ∧ found_project (checked_out clone_dir d st) (project_file clone_dir d) = Some proj.
Proof.
  intros Hparse Hwf Hcode Hpresent Htoml Hproj Hopen Hser Hserp.
  assert (Hfound : found_project (checked_out clone_dir d st) (project_file clone_dir d)
                   = Some proj).
  { unfold found_project. rewrite Hpresent, Htoml, Hproj. reflexivity. }
  split; [|exact Hfound].
  repeat split; try assumption.
  - unfold project_table_ok. rewrite Hpresent, Hfound. reflexivity.
  - unfold record_of. rewrite Hfound. apply serialisable_metadata_record; assumption.
Qed.

(** The whole run on a manifest whose lines can all be processed. *)
Lemma build_metadata_ok manifest_path output_index metadata_dir clone_root st content :
  mkdir_error st (Path.str (Path.of_string metadata_dir)) = None →
  st !! manifest_path = Some content →
  all_processable (Path.of_string metadata_dir) (Path.of_string clone_root)
    (file_lines content) (add_dir (Path.str (Path.of_string metadata_dir)) st) →
  open_error
    (files_after (for_lines (Path.of_string metadata_dir) (Path.of_string clone_root) []
                    (file_lines content)
                    (add_dir (Path.str (Path.of_string metadata_dir)) st)))
    output_index = None →
  ∃ ds projs,
    Forall2 parses_to (file_lines content) ds
    ∧ length projs = length ds
    ∧ (∀ j d proj, ds !! j = Some d → projs !! j = Some proj →
         files_after (for_lines (Path.of_string metadata_dir) (Path.of_string clone_root)
                        [] (take (S j) (file_lines content))
                        (add_dir (Path.str (Path.of_string metadata_dir)) st))
           !! metadata_file (Path.of_string metadata_dir) (entry_id d)
         = Some (json_dumps (metadata_record d (default [] proj))))
    ∧ build_metadata manifest_path output_index metadata_dir clone_root st
      = mkOutcome (Ok tt)
          (<[output_index
             := json_dumps (VList (index_entry (Path.of_string metadata_dir) <$> ds))]>
             (files_after (for_lines (Path.of_string metadata_dir)
                             (Path.of_string clone_root) [] (file_lines content)
                             (add_dir (Path.str (Path.of_string metadata_dir)) st))))
          (EMkdir (Path.str (Path.of_string metadata_dir))
           :: mjoin (zip_with (line_events (Path.of_string metadata_dir)
                                 (Path.of_string clone_root)) ds projs)
           ++ [EWrite output_index
                 (json_dumps (VList (index_entry (Path.of_string metadata_dir) <$> ds)));
               EPrint ("Generated " +:+ pretty (length ds) +:+ " metadata files in '"
                       +:+ metadata_dir +:+ "' and wrote '" +:+ output_index +:+ "'")]).
Proof.
  intros Hmk Hfile Hall Hopen.
  destruct (for_lines_returns _ _ _ [] _ Hall) as [index' Hres].
  destruct (for_lines_cases (Path.of_string metadata_dir) (Path.of_string clone_root)
              (file_lines content) [] (add_dir (Path.str (Path.of_string metadata_dir)) st))
    as (ds & projs & t & Hev & Hlen & Hparse & Hpaths & Hfiles & Hcase).
  rewrite (build_metadata_loop _ _ _ _ _ _ Hmk Hfile).
  destruct (for_lines (Path.of_string metadata_dir) (Path.of_string clone_root) []
              (file_lines content) _) as [r st1 t1].
  cbn [res events files_after] in Hres, Hev, Hcase, Hopen |- *. subst r.
  destruct Hcase as (Hn & -> & ->). rewrite app_nil_r in Hev. subst t1.
  rewrite Hn, firstn_all in Hparse.
  exists ds, projs. split; [exact Hparse|]. split; [exact Hlen|]. split; [exact Hfiles|].
  unfold run_outcome. rewrite Hopen, app_nil_l, (serialisable_index _ _ Hpaths), length_fmap.
  reflexivity.
Qed.




Lemma split_on_no_slash (s : string) :
  no_slash s = true → Path.split_on "/" s = [s].
Proof.
  induction s as [|c s IH]; [reflexivity|]. simpl. intros Hno.
  apply andb_true_iff in Hno as [Hc Hs].
  apply negb_true_iff, bool_decide_eq_false in Hc.
  destruct (decide (c = "/"%char)); [contradiction|].
  rewrite (IH Hs). reflexivity.
Qed.

Lemma root_of_no_slash (s : string) : no_slash s = true → Path.root_of s = "".
Proof.
  destruct s as [|c s]; [reflexivity|]. simpl no_slash. intros Hno.
  apply andb_true_iff in Hno as [Hc _].
  apply negb_true_iff, bool_decide_eq_false in Hc.
  destruct c as [[] [] [] [] [] [] [] []]; try reflexivity. destruct (Hc eq_refl).
Qed.

Lemma no_slash_app (s t : string) : no_slash (s +:+ t) = no_slash s && no_slash t.
Proof.
  induction s as [|c s IH]; [reflexivity|]. simpl. rewrite IH. apply andb_assoc.
Qed.

Lemma is_part_with_suffix (s : string) : Path.is_part (s +:+ ".json") = true.
Proof.
  unfold Path.is_part.
  rewrite !bool_decide_eq_false_2; [reflexivity | |].
  - destruct s as [|c [|c' s]]; discriminate.
  - destruct s; discriminate.
Qed.

(** For a metadata directory of one component and a name without a slash,
    the path joined is the text of the directory, a slash, the name and
    ".json". *)
Lemma metadata_file_simple (metadata_dir name : string) :
  simple_name metadata_dir = true →
  no_slash name = true →
  Path.str (Path.of_string metadata_dir // (name +:+ ".json"))
  = metadata_dir +:+ "/" +:+ name +:+ ".json".
Proof.
  intros Hdir Hname.
  apply andb_true_iff in Hdir as [Hno Hpart].
  assert (Hfile : no_slash (name +:+ ".json") = true).
  { rewrite no_slash_app, Hname. reflexivity. }
  unfold Path.div, Path.of_string, Path.parts_of.
  rewrite (root_of_no_slash _ Hfile), (root_of_no_slash _ Hno).
  rewrite (split_on_no_slash _ Hfile), (split_on_no_slash _ Hno).
  simpl. rewrite Hpart, is_part_with_suffix. reflexivity.
Qed.



(** C10: when the clone of a well-formed entry has a pyproject.toml with no
    [project] table, or an empty one, and the file of the library can be
    opened, the record written, which is then in the file, is the one of the
    case without the file, and nothing is printed. *)
Theorem empty_project_table_defaults_without_warning
    meta_dir clone_dir index line d st text doc :
  json_loads line = Some (VDict d) →
  well_formed d = true →
  serialisable (VDict d) = true →
  (subprocess_run st (clone_command clone_dir d)).1 = 0 →
  checked_out clone_dir d st !! project_file clone_dir d = Some text →
  toml_loads text = Some doc →
  assoc "project" doc = None ∨ assoc "project" doc = Some (VDict []) →
  open_error (checked_out clone_dir d st) (metadata_file meta_dir (entry_id d)) = None →
  res (process_line meta_dir clone_dir index line st)
  = Ok (index ++ [index_entry meta_dir d])
  ∧ writes (events (process_line meta_dir clone_dir index line st))
    = [(metadata_file meta_dir (entry_id d), json_dumps (default_record d))]
  ∧ files_after (process_line meta_dir clone_dir index line st)
      !! metadata_file meta_dir (entry_id d)
    = Some (json_dumps (default_record d))
  ∧ printed (events (process_line meta_dir clone_dir index line st)) = [].
Proof.
  intros Hparse Hwf Hser Hcode Hpresent Htoml Hempty Hopen.
  assert (Hproj : dict_get doc "project" (VDict []) = VDict []).
  { unfold dict_get. destruct Hempty as [-> | ->]; reflexivity. }
  destruct (processable_present meta_dir clone_dir line d st text doc [] Hparse Hwf Hcode
              Hpresent Htoml Hproj Hopen Hser eq_refl) as [Hline Hfound].
  rewrite (process_line_ok meta_dir clone_dir index line d st Hline).
  cbn [res events files_after].
  unfold after_line, record_of. rewrite Hfound. simpl default.
  rewrite default_record_eq.
  split; [reflexivity|]. split; [reflexivity|].
  split; [apply lookup_written | reflexivity].
Qed.

(** A line that is not valid JSON stops the loop body at once. *)
Lemma process_line_malformed meta_dir clone_dir index line st :
  json_loads line = None →
  process_line meta_dir clone_dir index line st = mkOutcome (Raise JSONDecodeError) st [].
Proof.
  intros Hbad. unfold process_line, parse_line. rewrite Hbad. reflexivity.
Qed.

(** A line that is not valid JSON stops the loop. *)
Lemma for_lines_head_malformed meta_dir clone_dir index line lines st :
  json_loads line = None →
  for_lines meta_dir clone_dir index (line :: lines) st
  = mkOutcome (Raise JSONDecodeError) st [].
Proof.
  intros Hbad. simpl. unfold bind.
  rewrite process_line_malformed by exact Hbad. reflexivity.
Qed.

(** The loop writes one file per line at most. *)
Lemma for_lines_writes_le meta_dir clone_dir lines index st :
  (length (writes (events (for_lines meta_dir clone_dir index lines st))) ≤ length lines)%nat.
Proof.
  destruct (for_lines_cases meta_dir clone_dir lines index st)
    as (ds & projs & t & Hev & Hlen & Hparse & _ & _ & Hcase).
  rewrite Hev, writes_app, writes_loop_events, length_app, length_zip_with.
  apply Forall2_length in Hparse. rewrite length_take in Hparse.
  destruct (res (for_lines meta_dir clone_dir index lines st)).
  - destruct Hcase as (_ & -> & _). simpl. lia.
  - destruct Hcase as (_ & _ & -> & _). simpl. lia.
Qed.

(** C6: when a line of the manifest is not valid JSON, the run raises.  If
    the metadata directory cannot be made, it raises the error of [mkdir]
    and has done nothing.  Otherwise it raises the parse error, unless a line
    before the malformed one already raised; what it has done is the
    directory and the loop over the lines before the malformed one, and the
    machine is as that loop left it: nothing for that line or a later one, no
    index, no summary, and one file per earlier line at most. *)
Theorem malformed_line_aborts_run
    manifest_path output_index metadata_dir clone_root st content before bad after :
  st !! manifest_path = Some content →
  file_lines content = before ++ bad :: after →
  json_loads bad = None →
  match mkdir_error st (Path.str (Path.of_string metadata_dir)) with
  | Some e =>
      build_metadata manifest_path output_index metadata_dir clone_root st
      = mkOutcome (Raise e) st []
  | None =>
      (∃ e, res (build_metadata manifest_path output_index metadata_dir clone_root st)
            = Raise e
            ∧ (res (for_lines (Path.of_string metadata_dir) (Path.of_string clone_root)
                      [] before (add_dir (Path.str (Path.of_string metadata_dir)) st))
               = Raise e
               ∨ e = JSONDecodeError
                 ∧ ∃ index,
                     res (for_lines (Path.of_string metadata_dir)
                            (Path.of_string clone_root) [] before
                            (add_dir (Path.str (Path.of_string metadata_dir)) st))
                     = Ok index))
      ∧ events (build_metadata manifest_path output_index metadata_dir clone_root st)
        = EMkdir (Path.str (Path.of_string metadata_dir))
          :: events (for_lines (Path.of_string metadata_dir) (Path.of_string clone_root)
                       [] before (add_dir (Path.str (Path.of_string metadata_dir)) st))
      ∧ files_after (build_metadata manifest_path output_index metadata_dir clone_root st)
        = files_after (for_lines (Path.of_string metadata_dir) (Path.of_string clone_root)
                         [] before (add_dir (Path.str (Path.of_string metadata_dir)) st))
      ∧ (length (writes (events (build_metadata manifest_path output_index metadata_dir
                                   clone_root st))) ≤ length before)%nat
  end.
Proof.
  intros Hfile Hlines Hbad.
  destruct (mkdir_error st (Path.str (Path.of_string metadata_dir))) as [e|] eqn:Hmk.
  { exact (build_metadata_no_dir _ _ _ _ _ _ Hmk). }
  pose proof (for_lines_writes_le (Path.of_string metadata_dir) (Path.of_string clone_root)
                before [] (add_dir (Path.str (Path.of_string metadata_dir)) st)) as Hle.
  rewrite (build_metadata_loop _ _ _ _ _ _ Hmk Hfile), Hlines, for_lines_app.
  unfold bind, run_outcome.
  destruct (for_lines (Path.of_string metadata_dir) (Path.of_string clone_root) [] before _)
    as [[index|e] st1 t1]; simpl in Hle.
  - rewrite for_lines_head_malformed by exact Hbad. simpl.
    rewrite app_nil_r. split; [|auto].
    exists JSONDecodeError. split; [reflexivity|]. right. eauto.
  - simpl. split; [|auto]. exists e. auto.
Qed.

(** ** Beyond the normal path *)

(** X1: the ways the loop body ends, for every line and environment.
    Either it returns: then the line can be processed from the machine it
    started in, the index has grown by the entry of the line, what was done
    is the checkout, the warning if no project file was found, and the write
    of the record, in that order, and the machine is the one the checkout
    left with the record in the file of the library.  Or it raises: then no
    file has been written in full, and it has done nothing, or the checkout
    only, or the checkout and the warning, or these and a part of the record,
    which is then left in the file of the library. *)
Theorem loop_body_outcomes meta_dir clone_dir index line st :
  match res (process_line meta_dir clone_dir index line st) with
  | Ok index' =>
      ∃ d,
        processable meta_dir clone_dir line d st
        ∧ index' = index ++ [index_entry meta_dir d]
        ∧ events (process_line meta_dir clone_dir index line st)
          = line_events meta_dir clone_dir d
              (found_project (checked_out clone_dir d st) (project_file clone_dir d))
        ∧ files_after (process_line meta_dir clone_dir index line st)
          = after_line meta_dir clone_dir d st
  | Raise e =>
      writes (events (process_line meta_dir clone_dir index line st)) = []
      ∧ aborted meta_dir clone_dir line st
          (events (process_line meta_dir clone_dir index line st))
          (files_after (process_line meta_dir clone_dir index line st))
  end.
Proof.
  destruct (res (process_line meta_dir clone_dir index line st)) as [index'|e] eqn:Hres.
  - destruct (process_line_returns _ _ _ _ _ _ Hres) as [d Hd].
    exists d. rewrite (process_line_ok meta_dir clone_dir index line d st Hd) in Hres |- *.
    cbn [res events files_after] in Hres |- *. injection Hres as <-. auto.
  - exact (process_line_raises _ _ _ _ _ _ Hres).
Qed.

(** X2: a run that returns has read a manifest whose lines all parse to
    well-formed entries, and has done exactly this: made the metadata
    directory; for each line in order, the checkout, the warning if no
    project file was found and the write of the record; written the index
    with one entry per line; printed the summary with the number of lines.
    The commands it started are one [git clone] per line, in order. *)
Theorem completed_run_shape manifest_path output_index metadata_dir clone_root fs :
  res (build_metadata manifest_path output_index metadata_dir clone_root fs) = Ok tt →
  ∃ content ds projs,
    fs !! manifest_path = Some content
    ∧ Forall2 parses_to (file_lines content) ds
    ∧ length projs = length ds
    ∧ events (build_metadata manifest_path output_index metadata_dir clone_root fs)
      = EMkdir (Path.str (Path.of_string metadata_dir))
        :: mjoin (zip_with (line_events (Path.of_string metadata_dir)
                              (Path.of_string clone_root)) ds projs)
        ++ [EWrite output_index
              (json_dumps (VList (index_entry (Path.of_string metadata_dir) <$> ds)));
            EPrint ("Generated " +:+ pretty (length (file_lines content))
                    +:+ " metadata files in '" +:+ metadata_dir
                    +:+ "' and wrote '" +:+ output_index +:+ "'")]
    ∧ commands (events (build_metadata manifest_path output_index metadata_dir
                          clone_root fs))
      = clone_command (Path.of_string clone_root) <$> ds.
Proof.
  intros Hres.
  destruct (mkdir_error fs (Path.str (Path.of_string metadata_dir))) as [e|] eqn:Hmk.
  { rewrite (build_metadata_no_dir _ _ _ _ _ _ Hmk) in Hres. discriminate Hres. }
  destruct (fs !! manifest_path) as [content|] eqn:Hfile.
  - rewrite (build_metadata_loop _ _ _ _ _ _ Hmk Hfile) in Hres |- *.
    destruct (for_lines_cases (Path.of_string metadata_dir) (Path.of_string clone_root)
                (file_lines content) []
                (add_dir (Path.str (Path.of_string metadata_dir)) fs))
      as (ds & projs & t & Hev & Hlen & Hparse & Hpaths & _ & Hcase).
    unfold run_outcome in Hres |- *.
    destruct (for_lines (Path.of_string metadata_dir) (Path.of_string clone_root) []
                (file_lines content) _) as [[index|e] fs1 t1];
      cbn [res events] in Hev, Hcase, Hres |- *; [|discriminate Hres].
    destruct Hcase as (Hn & -> & ->). rewrite app_nil_r in Hev. subst t1.
    rewrite Hn, firstn_all in Hparse.
    destruct (open_error fs1 output_index); [discriminate Hres|].
    rewrite app_nil_l, (serialisable_index _ _ Hpaths), length_fmap.
    cbn [events].
    exists content, ds, projs.
    split; [reflexivity|]. split; [exact Hparse|]. split; [exact Hlen|].
    split; [rewrite Hn; reflexivity|].
    cbn [commands]. rewrite commands_app, commands_loop_events by exact Hlen.
    simpl. apply app_nil_r.
  - rewrite (build_metadata_no_manifest _ _ _ _ _ Hmk Hfile) in Hres. discriminate Hres.
Qed.

(** X3: a run that raises with the manifest in place.  Either the metadata
    directory could not be made: then nothing was done.  Or the lines before
    the one that raised, and no other, were processed: the files written in
    full are the records of those lines, one each, in order, and each was in
    its file when its line was done; the summary is not printed.  Then either
    a line raised, having done at most its checkout, its warning and a part of
    its record, and the index was not opened; or every line was processed and
    the index could not be opened.  The program removes nothing: the machine
    it leaves is the one the last processed line left, changed by what the
    raising line did. *)
Theorem aborted_run_shape
    manifest_path output_index metadata_dir clone_root st content e :
  st !! manifest_path = Some content →
  res (build_metadata manifest_path output_index metadata_dir clone_root st) = Raise e →
  match mkdir_error st (Path.str (Path.of_string metadata_dir)) with
  | Some e' =>
      e' = e
      ∧ build_metadata manifest_path output_index metadata_dir clone_root st
        = mkOutcome (Raise e) st []
  | None =>
      ∃ ds projs t,
        length projs = length ds
        ∧ Forall2 parses_to (take (length ds) (file_lines content)) ds
        ∧ events (build_metadata manifest_path output_index metadata_dir clone_root st)
          = EMkdir (Path.str (Path.of_string metadata_dir))
            :: mjoin (zip_with (line_events (Path.of_string metadata_dir)
                                  (Path.of_string clone_root)) ds projs)
            ++ t
        ∧ writes (events (build_metadata manifest_path output_index metadata_dir
                            clone_root st))
          = zip_with (λ d proj, (metadata_file (Path.of_string metadata_dir) (entry_id d),
                                 json_dumps (metadata_record d (default [] proj)))) ds projs
        ∧ (∀ j d proj, ds !! j = Some d → projs !! j = Some proj →
             files_after (for_lines (Path.of_string metadata_dir)
                            (Path.of_string clone_root) []
                            (take (S j) (file_lines content))
                            (add_dir (Path.str (Path.of_string metadata_dir)) st))
               !! metadata_file (Path.of_string metadata_dir) (entry_id d)
             = Some (json_dumps (metadata_record d (default [] proj))))
        ∧ ((∃ bad,
              file_lines content !! length ds = Some bad
              ∧ aborted (Path.of_string metadata_dir) (Path.of_string clone_root) bad
                  (files_after (for_lines (Path.of_string metadata_dir)
                                  (Path.of_string clone_root) []
                                  (take (length ds) (file_lines content))
                                  (add_dir (Path.str (Path.of_string metadata_dir)) st)))
                  t
                  (files_after (build_metadata manifest_path output_index metadata_dir
                                  clone_root st)))
           ∨ (length ds = length (file_lines content)
              ∧ t = []
              ∧ open_error
                  (files_after (for_lines (Path.of_string metadata_dir)
                                  (Path.of_string clone_root) [] (file_lines content)
                                  (add_dir (Path.str (Path.of_string metadata_dir)) st)))
                  output_index = Some e
              ∧ files_after (build_metadata manifest_path output_index metadata_dir
                               clone_root st)
                = files_after (for_lines (Path.of_string metadata_dir)
                                 (Path.of_string clone_root) [] (file_lines content)
                                 (add_dir (Path.str (Path.of_string metadata_dir)) st))))
  end.
Proof.
  intros Hfile Hres.
  destruct (mkdir_error st (Path.str (Path.of_string metadata_dir))) as [e'|] eqn:Hmk.
  { rewrite (build_metadata_no_dir _ _ _ _ _ _ Hmk) in Hres |- *.
    injection Hres as ->. auto. }
  rewrite (build_metadata_loop _ _ _ _ _ _ Hmk Hfile) in Hres |- *.
  destruct (for_lines_cases (Path.of_string metadata_dir) (Path.of_string clone_root)
              (file_lines content) [] (add_dir (Path.str (Path.of_string metadata_dir)) st))
    as (ds & projs & t & Hev & Hlen & Hparse & Hpaths & Hfiles & Hcase).
  unfold run_outcome in Hres |- *.
  destruct (for_lines (Path.of_string metadata_dir) (Path.of_string clone_root) []
              (file_lines content) _) as [[index|e'] st1 t1];
    cbn [res events files_after] in Hev, Hcase, Hres |- *.
  - destruct Hcase as (Hn & -> & ->). rewrite app_nil_r in Hev. subst t1.
    rewrite app_nil_l, (serialisable_index _ _ Hpaths) in Hres |- *.
    destruct (open_error st1 output_index) as [e'|] eqn:Hopen; [|discriminate Hres].
    cbn [res events files_after] in Hres |- *. injection Hres as ->.
    exists ds, projs, []. rewrite app_nil_r.
    split; [exact Hlen|]. split; [exact Hparse|]. split; [reflexivity|].
    split; [cbn [writes]; apply writes_loop_events|]. split; [exact Hfiles|].
    right. auto.
  - injection Hres as ->. destruct Hcase as (bad & Hbad & Hw & Hab). subst t1.
    exists ds, projs, t.
    split; [exact Hlen|]. split; [exact Hparse|]. split; [reflexivity|].
    split; [cbn [writes]; rewrite writes_app, writes_loop_events, Hw; apply app_nil_r|].
    split; [exact Hfiles|]. left. exists bad. auto.
Qed.

(** X4: without a manifest file the run raises before it starts a process
    or writes a file: the error of [mkdir] when the metadata directory cannot
    be made; otherwise the error of [open] for the manifest, once the
    directory is made. *)
Theorem missing_manifest manifest_path output_index metadata_dir clone_root st :
  st !! manifest_path = None →
  build_metadata manifest_path output_index metadata_dir clone_root st
  = match mkdir_error st (Path.str (Path.of_string metadata_dir)) with
    | Some e => mkOutcome (Raise e) st []
    | None =>
        mkOutcome
          (Raise (read_error (add_dir (Path.str (Path.of_string metadata_dir)) st)
                    manifest_path))
          (add_dir (Path.str (Path.of_string metadata_dir)) st)
          [EMkdir (Path.str (Path.of_string metadata_dir))]
    end.
Proof.
  intros Hfile.
  destruct (mkdir_error st (Path.str (Path.of_string metadata_dir))) as [e|] eqn:Hmk.
  - exact (build_metadata_no_dir _ _ _ _ _ _ Hmk).
  - exact (build_metadata_no_manifest _ _ _ _ _ Hmk Hfile).
Qed.

(** X5: on an empty manifest, when the metadata directory can be made and
    the index opened, the run starts no process; it writes the index of the
    empty list and prints the summary for 0 files. *)
Theorem empty_manifest manifest_path output_index metadata_dir clone_root st :
  st !! manifest_path = Some "" →
  mkdir_error st (Path.str (Path.of_string metadata_dir)) = None →
  open_error (add_dir (Path.str (Path.of_string metadata_dir)) st) output_index = None →
  build_metadata manifest_path output_index metadata_dir clone_root st
  = mkOutcome (Ok tt)
      (<[output_index := json_dumps (VList [])]>
         (add_dir (Path.str (Path.of_string metadata_dir)) st))
      [EMkdir (Path.str (Path.of_string metadata_dir));
       EWrite output_index (json_dumps (VList []));
       EPrint ("Generated 0 metadata files in '" +:+ metadata_dir
               +:+ "' and wrote '" +:+ output_index +:+ "'")].
Proof.
  intros Hfile Hmk Hopen. rewrite (build_metadata_loop _ _ _ _ _ _ Hmk Hfile).
  change (file_lines "") with (@nil string).
  cbn [for_lines]. unfold ret, run_outcome.
  rewrite Hopen. reflexivity.
Qed.

(** X6: a line that parses to an object without [library_id], or without
    [url], raises [KeyError] for the first of the two that is missing,
    before any process is started: nothing has been done. *)
Theorem missing_key_raises_before_checkout meta_dir clone_dir index line d fs :
  json_loads line = Some (VDict d) →
  assoc "library_id" d = None ∨ assoc "url" d = None →
  process_line meta_dir clone_dir index line fs
  = mkOutcome (Raise (KeyError (match assoc "library_id" d with
                                | None => "library_id"
                                | Some _ => "url"
                                end))) fs [].
Proof.
  intros Hparse Hmissing. run_body. rewrite Hparse.
  destruct (assoc "library_id" d) as [lib_id|]; [|reflexivity].
  destruct Hmissing as [Hid | Hurl]; [discriminate Hid|].
  rewrite Hurl. reflexivity.
Qed.

(** X7: a line that is valid JSON but not an object raises [TypeError] at
    the first subscript; nothing has been done. *)
Theorem non_object_line_raises meta_dir clone_dir index line v fs :
  json_loads line = Some v →
  (∀ d, v ≠ VDict d) →
  process_line meta_dir clone_dir index line fs = mkOutcome (Raise TypeError) fs [].
Proof.
  intros Hparse Hv. run_body. rewrite Hparse.
  destruct v; try reflexivity. destruct (Hv d eq_refl).
Qed.

(** X8: a [library_id] that is not a string raises [AttributeError] when it
    is lowered, before any process is started. *)
Theorem non_string_id_raises meta_dir clone_dir index line d v u fs :
  json_loads line = Some (VDict d) →
  assoc "library_id" d = Some v →
  (∀ s, v ≠ VStr s) →
  assoc "url" d = Some u →
  process_line meta_dir clone_dir index line fs = mkOutcome (Raise AttributeError) fs [].
Proof.
  intros Hparse Hid Hv Hurl. run_body. rewrite Hparse, Hid, Hurl.
  destruct v; try reflexivity. destruct (Hv s eq_refl).
Qed.

(** X9: a [url] that is not a string raises [TypeError] when the command
    line is built: no process is started. *)
Theorem non_string_url_raises meta_dir clone_dir index line d id u fs :
  json_loads line = Some (VDict d) →
  assoc "library_id" d = Some (VStr id) →
  assoc "url" d = Some u →
  (∀ s, u ≠ VStr s) →
  process_line meta_dir clone_dir index line fs = mkOutcome (Raise TypeError) fs [].
Proof.
  intros Hparse Hid Hurl Hu. run_body. rewrite Hparse, Hid, Hurl.
  destruct u; try reflexivity. destruct (Hu s eq_refl).
Qed.

(** X10: a checkout that exits with a code other than 0 raises
    [CalledProcessError] with that code; the warning is not printed and no
    file is written. *)
Theorem failed_checkout_raises meta_dir clone_dir index line d id url fs :
  json_loads line = Some (VDict d) →
  assoc "library_id" d = Some (VStr id) →
  assoc "url" d = Some (VStr url) →
  (subprocess_run fs ["git"; "clone"; url; Path.str (clone_dir // lower id)]).1 ≠ 0 →
  process_line meta_dir clone_dir index line fs
  = mkOutcome
      (Raise (CalledProcessError
                (subprocess_run fs ["git"; "clone"; url; Path.str (clone_dir // lower id)]).1))
      (subprocess_run fs ["git"; "clone"; url; Path.str (clone_dir // lower id)]).2
      [ERun ["git"; "clone"; url; Path.str (clone_dir // lower id)]].
Proof.
  intros Hparse Hid Hurl Hcode. run_body. rewrite Hparse, Hid, Hurl. simpl.
  destruct (subprocess_run fs _) as [code fs']. simpl in Hcode |- *.
  destruct (decide (code = 0)); [contradiction|reflexivity].
Qed.


(** X12: a pyproject.toml that is not valid TOML raises the decode error
    after the checkout; no file is written. *)
Theorem invalid_project_file_raises meta_dir clone_dir index line d id url fs text :
  json_loads line = Some (VDict d) →
  assoc "library_id" d = Some (VStr id) →
  assoc "url" d = Some (VStr url) →
  (subprocess_run fs ["git"; "clone"; url; Path.str (clone_dir // lower id)]).1 = 0 →
  (subprocess_run fs ["git"; "clone"; url; Path.str (clone_dir // lower id)]).2
    !! Path.str (clone_dir // lower id // "pyproject.toml") = Some text →
  toml_loads text = None →
  process_line meta_dir clone_dir index line fs
  = mkOutcome (Raise TomlDecodeError)
      (subprocess_run fs ["git"; "clone"; url; Path.str (clone_dir // lower id)]).2
      [ERun ["git"; "clone"; url; Path.str (clone_dir // lower id)]].
Proof.
  intros Hparse Hid Hurl Hcode Hlook Htoml. run_body. rewrite Hparse, Hid, Hurl. simpl.
  destruct (subprocess_run fs _) as [code fs']. simpl in Hcode, Hlook |- *. subst code.
  simpl. rewrite Hlook. simpl. rewrite Hlook, Htoml. reflexivity.
Qed.

(** X13: a pyproject.toml whose [project] entry is not a table raises
    [AttributeError] at the first lookup in it, after the checkout and
    without a warning; no file is written. *)
Theorem non_table_project_raises
    meta_dir clone_dir index line d id url path fs text doc v :
  json_loads line = Some (VDict d) →
  assoc "library_id" d = Some (VStr id) →
  assoc "url" d = Some (VStr url) →
  assoc "path" d = Some path →
  (subprocess_run fs ["git"; "clone"; url; Path.str (clone_dir // lower id)]).1 = 0 →
  (subprocess_run fs ["git"; "clone"; url; Path.str (clone_dir // lower id)]).2
    !! Path.str (clone_dir // lower id // "pyproject.toml") = Some text →
  toml_loads text = Some doc →
  assoc "project" doc = Some v →
  (∀ t, v ≠ VDict t) →
  process_line meta_dir clone_dir index line fs
  = mkOutcome (Raise AttributeError)
      (subprocess_run fs ["git"; "clone"; url; Path.str (clone_dir // lower id)]).2
      [ERun ["git"; "clone"; url; Path.str (clone_dir // lower id)]].
Proof.
  intros Hparse Hid Hurl Hpath Hcode Hlook Htoml Hproj Hv.
  run_body. rewrite Hparse, Hid, Hurl. simpl.
  destruct (subprocess_run fs _) as [code fs']. simpl in Hcode, Hlook |- *. subst code.
  simpl. rewrite Hlook. simpl. rewrite Hlook, Htoml. simpl.
  unfold dict_get. rewrite Hproj, Hpath. simpl.
  destruct v; try reflexivity. destruct (Hv d0 eq_refl).
Qed.

(** X14: when the clone has a pyproject.toml with a [project] table that
    holds no date and the file of the library can be opened, each project
    field of the record written is the value of the table when the key is
    there and the default otherwise; [requirements] is read from the key
    [dependencies]; the four manifest fields come from the line, whatever
    the table holds; the record is then in the file; and nothing is
    printed. *)
Theorem project_fields_merge
    meta_dir clone_dir index line d id path url st text doc proj :
  json_loads line = Some (VDict d) →
  assoc "library_id" d = Some (VStr id) →
  assoc "path" d = Some path →
  assoc "url" d = Some (VStr url) →
  serialisable (VDict d) = true →
  (subprocess_run st ["git"; "clone"; url; Path.str (clone_dir // lower id)]).1 = 0 →
  (subprocess_run st ["git"; "clone"; url; Path.str (clone_dir // lower id)]).2
    !! Path.str (clone_dir // lower id // "pyproject.toml") = Some text →
  toml_loads text = Some doc →
  assoc "project" doc = Some (VDict proj) →
  serialisable (VDict proj) = true →
  open_error (subprocess_run st ["git"; "clone"; url; Path.str (clone_dir // lower id)]).2
    (Path.str (meta_dir // (lower id +:+ ".json"))) = None →
  ∃ record,
    record = VDict [
        ("library_id", VStr id);
        ("path", path);
        ("url", VStr url);
        ("git_ref", default (VStr "main") (assoc "git_ref" d));
        ("version", default (VStr "N/A") (assoc "version" proj));
        ("description", default (VStr "No description available.")
                          (assoc "description" proj));
        ("authors", default (VList []) (assoc "authors" proj));
        ("license", default (VStr "N/A") (assoc "license" proj));
        ("readme", default VNone (assoc "readme" proj));
        ("repository", default VNone (assoc "repository" proj));
        ("keywords", default (VList []) (assoc "keywords" proj));
        ("requirements", default (VList []) (assoc "dependencies" proj))]
    ∧ writes (events (process_line meta_dir clone_dir index line st))
      = [(Path.str (meta_dir // (lower id +:+ ".json")), json_dumps record)]
    ∧ files_after (process_line meta_dir clone_dir index line st)
        !! Path.str (meta_dir // (lower id +:+ ".json"))
      = Some (json_dumps record)
    ∧ printed (events (process_line meta_dir clone_dir index line st)) = [].
Proof.
  intros Hparse Hid Hpath Hurl Hser Hcode Hlook Htoml Hproj Hserp Hopen.
  assert (Hwf : well_formed d = true).
  { unfold well_formed. rewrite Hid, Hurl, Hpath. reflexivity. }
  assert (Hcmd : clone_command clone_dir d
                 = ["git"; "clone"; url; Path.str (clone_dir // lower id)]).
  { unfold clone_command, clone_target, entry_url, entry_id. rewrite Hid, Hurl. reflexivity. }
  assert (Hfile : project_file clone_dir d
                  = Path.str (clone_dir // lower id // "pyproject.toml")).
  { unfold project_file, clone_target, entry_id. rewrite Hid. reflexivity. }
  assert (Hout : metadata_file meta_dir (entry_id d)
                 = Path.str (meta_dir // (lower id +:+ ".json"))).
  { unfold metadata_file, entry_id. rewrite Hid. reflexivity. }
  assert (Htable : dict_get doc "project" (VDict []) = VDict proj).
  { unfold dict_get. rewrite Hproj. reflexivity. }
  rewrite <- Hcmd in Hcode, Hlook, Hopen. rewrite <- Hfile in Hlook.
  rewrite <- Hout in Hopen |- *.
  destruct (processable_present meta_dir clone_dir line d st text doc proj Hparse Hwf Hcode
              Hlook Htoml Htable Hopen Hser Hserp) as [Hline Hfound].
  rewrite (process_line_ok meta_dir clone_dir index line d st Hline).
  cbn [events files_after]. rewrite writes_line_events.
  unfold after_line, record_of. rewrite Hfound. simpl default.
  assert (Hrecord : metadata_record d proj
                    = VDict [
                        ("library_id", VStr id);
                        ("path", path);
                        ("url", VStr url);
                        ("git_ref", default (VStr "main") (assoc "git_ref" d));
                        ("version", default (VStr "N/A") (assoc "version" proj));
                        ("description", default (VStr "No description available.")
                                          (assoc "description" proj));
                        ("authors", default (VList []) (assoc "authors" proj));
                        ("license", default (VStr "N/A") (assoc "license" proj));
                        ("readme", default VNone (assoc "readme" proj));
                        ("repository", default VNone (assoc "repository" proj));
                        ("keywords", default (VList []) (assoc "keywords" proj));
                        ("requirements", default (VList []) (assoc "dependencies" proj))]).
  { unfold metadata_record, entry_id, entry_url, entry_path, entry_ref, dict_get.
    rewrite Hid, Hurl, Hpath.
    destruct (assoc "git_ref" d), (assoc "version" proj), (assoc "description" proj),
      (assoc "authors" proj), (assoc "license" proj), (assoc "readme" proj),
      (assoc "repository" proj), (assoc "keywords" proj), (assoc "dependencies" proj);
      reflexivity. }
  rewrite Hrecord. eexists. split; [reflexivity|].
  split; [reflexivity|]. split; [apply lookup_written | reflexivity].
Qed.

Lemma root_of_rooted (s : string) : Path.root_of (String "/" s) ≠ "".
Proof.
  destruct s as [|c s]; [discriminate|].
  destruct (decide (c = "/"%char)) as [->|Hc].
  - destruct s as [|c' s]; [discriminate|].
    destruct c' as [[] [] [] [] [] [] [] []]; discriminate.
  - destruct c as [[] [] [] [] [] [] [] []]; try discriminate. destruct (Hc eq_refl).
Qed.


(** X18: when the metadata directory cannot be made, the run raises the
    error of [mkdir] before it opens the manifest: nothing has been done. *)
Theorem mkdir_failure_stops_run manifest_path output_index metadata_dir clone_root st e :
  mkdir_error st (Path.str (Path.of_string metadata_dir)) = Some e →
  build_metadata manifest_path output_index metadata_dir clone_root st
  = mkOutcome (Raise e) st [].
Proof. apply build_metadata_no_dir. Qed.


(** X20: when the record holds a date, which can only come from the
    [project] table, [json.dump] raises [TypeError] after the file of the
    library was opened: the loop body raises, the file is left with the part
    of the record written by then, and the index does not grow. *)
Theorem date_in_record_leaves_partial_file meta_dir clone_dir index line d st :
  json_loads line = Some (VDict d) →
  well_formed d = true →
  (subprocess_run st (clone_command clone_dir d)).1 = 0 →
  project_table_ok (checked_out clone_dir d st) (project_file clone_dir d) = true →
  open_error (checked_out clone_dir d st) (metadata_file meta_dir (entry_id d)) = None →
  serialisable (record_of clone_dir d st) = false →
  process_line meta_dir clone_dir index line st
  = mkOutcome (Raise TypeError) (after_line meta_dir clone_dir d st)
      (ERun (clone_command clone_dir d)
       :: match checked_out clone_dir d st !! project_file clone_dir d with
          | None => [EPrint (warning (entry_id d))]
          | Some _ => []
          end
       ++ [EPartial (metadata_file meta_dir (entry_id d))
             (json_dumps (record_of clone_dir d st))])
  ∧ files_after (process_line meta_dir clone_dir index line st)
      !! metadata_file meta_dir (entry_id d)
    = Some (json_dumps (record_of clone_dir d st)).
Proof.
  intros Hparse Hwf Hcode Htable Hopen Hser.
  destruct (well_formed_fields d Hwf) as (Hid & Hurl & Hpath).
  rewrite (process_line_entry _ _ _ _ _ _ _ _ Hparse Hid Hurl).
  unfold line_outcome, write_outcome, after_line.
  unfold record_of in Hser |- *.
  destruct (decide _) as [_|Hne]; [|destruct (Hne Hcode)].
  apply project_table_ok_found in Htable. rewrite Hpath, Hopen.
  destruct (checked_out clone_dir d st !! project_file clone_dir d) as [text|].
  - destruct Htable as (doc & proj & -> & -> & Hfound). rewrite Hfound in Hser |- *.
    simpl default in Hser |- *. rewrite Hser. cbn [files_after].
    split; [reflexivity | apply lookup_written].
  - rewrite Htable in Hser |- *. simpl default in Hser |- *. rewrite Hser.
    cbn [files_after]. split; [reflexivity | apply lookup_written].
Qed.


End Properties.

(** ** The model at work *)

Ltac closed_processable :=
  unfold processable; repeat split; vm_compute; reflexivity.

Lemma demo_manifest lines :
  Demo.files_with lines !! Demo.manifest_path = Some (String.concat "" lines).
Proof. apply (lookup_singleton_eq (M := gmap string)). Qed.

Lemma posix_manifest lines :
  Posix.start lines !! Demo.manifest_path = Some (String.concat "" lines).
Proof. apply (lookup_singleton_eq (M := gmap string)). Qed.

Lemma posix_processable_foo :
  @processable Posix.env Demo.meta_dir Demo.clone_dir Demo.foo_line
    (Demo.entry Demo.foo_fields) (Posix.ready []).
Proof. closed_processable. Qed.

Lemma posix_processable_foo_pinned :
  @processable Posix.env Demo.meta_dir Demo.clone_dir Demo.foo_pinned_line
    (Demo.entry Demo.foo_pinned_fields) (Posix.ready []).
Proof. closed_processable. Qed.

Lemma posix_processable_foo_shout :
  @processable Posix.env Demo.meta_dir Demo.clone_dir Demo.foo_shout_line
    (Demo.entry Demo.foo_shout_fields) (Posix.ready []).
Proof. closed_processable. Qed.

Lemma posix_processable_rooted :
  @processable Posix.env Demo.meta_dir Demo.clone_dir Faulty.rooted_line
    (Demo.entry Faulty.rooted_fields) (Posix.ready []).
Proof. closed_processable. Qed.

Lemma posix_three_lines :
  @all_processable Posix.env (Path.of_string Demo.metadata_dir)
    (Path.of_string Demo.clone_root) (file_lines (String.concat "" Demo.three_lines))
    (add_dir (Path.str (Path.of_string Demo.metadata_dir)) (Posix.start Demo.three_lines)).
Proof. vm_compute. repeat split. Qed.

(** C2: the command line of the checkout holds the URL and the target
    directory only.  For the line that asks for revision "v1.0" the run
    starts the very command it starts for the line without a revision, while
    the record written says "v1.0". *)
Theorem checkout_command_has_no_git_ref :
  dict_get (Demo.entry Demo.foo_pinned_fields) "git_ref" (VStr "main") = VStr "v1.0"
  ∧ commands (events (Demo.run [Demo.foo_pinned_line]))
    = [["git"; "clone"; "https://example/foo.git"; ".clones/foo"]]
  ∧ commands (events (Demo.run [Demo.foo_line]))
    = [["git"; "clone"; "https://example/foo.git"; ".clones/foo"]]
  ∧ ∀ (E : Env) clone_dir d ref,
      clone_command clone_dir (("git_ref", ref) :: d) = clone_command clone_dir d.
Proof.
  split; [reflexivity|]. split; [vm_compute; reflexivity|].
  split; [vm_compute; reflexivity|]. intros E clone_dir d ref. reflexivity.
Qed.

(** C8: two lines with the same [library_id] are cloned into the same
    directory, and no clone is ever removed.  With a checkout that refuses a
    target that exists, as [git clone] does, the run stops at the second of
    the two lines with [CalledProcessError]: the file of the library holds
    the record of the earlier line, and no index is written.  With a checkout
    that accepts the target, the later record replaces the earlier one and
    the index has an entry for each line. *)
Theorem duplicate_id_stops_at_second_clone :
  entry_id (Demo.entry Demo.foo_fields) = entry_id (Demo.entry Demo.foo_pinned_fields)
  ∧ (∀ (E : Env) clone_dir d d',
       entry_id d = entry_id d' → clone_target clone_dir d = clone_target clone_dir d')
  ∧ commands (events (Posix.run Demo.twice_foo))
    = [["git"; "clone"; "https://example/foo.git"; ".clones/foo"];
       ["git"; "clone"; "https://example/bar.git"; ".clones/bar"];
       ["git"; "clone"; "https://example/foo.git"; ".clones/foo"]]
  ∧ res (Posix.run Demo.twice_foo) = Raise (CalledProcessError 128)
  ∧ writes (events (Posix.run Demo.twice_foo))
    = [("metadata/foo.json",
        Json.dumps (default_record (Demo.entry Demo.foo_fields)));
       ("metadata/bar.json",
        Json.dumps (metadata_record (Demo.entry Demo.bar_fields)
                      [("version", VStr "1.2.0"); ("description", VStr "Bar components")]))]
  ∧ files_after (Posix.run Demo.twice_foo) !! "metadata/foo.json"
    = Some (Json.dumps (default_record (Demo.entry Demo.foo_fields)))
  ∧ files_after (Posix.run Demo.twice_foo) !! "index.json" = None
  ∧ res (Demo.run Demo.twice_foo) = Ok tt
  ∧ (λ w : string * string, w.1) <$> writes (events (Demo.run Demo.twice_foo))
    = ["metadata/foo.json"; "metadata/bar.json"; "metadata/foo.json"; "index.json"]
  ∧ files_after (Demo.run Demo.twice_foo) !! "metadata/foo.json"
    = Some (Json.dumps (default_record (Demo.entry Demo.foo_pinned_fields))).
Proof.
  split; [reflexivity|].
  split; [intros E clone_dir d d' Hsame; unfold clone_target; rewrite Hsame; reflexivity|].
  repeat split; vm_compute; reflexivity.
Qed.

(** C9: the run removes no clone.  With a checkout that refuses a target
    that exists, as [git clone] does, a second run from the machine the first
    one left stops at the first line with [CalledProcessError] and writes
    nothing, where the first run wrote three records and the index.  Once the
    clone directory is removed, the second run writes what the first one
    wrote. *)
Theorem rerun_stops_at_first_clone :
  res (Posix.run Demo.three_lines) = Ok tt
  ∧ (λ w : string * string, w.1) <$> writes (events (Posix.run Demo.three_lines))
    = ["metadata/foo.json"; "metadata/bar.json"; "metadata/baz.json"; "index.json"]
  ∧ Posix.is_dir (files_after (Posix.run Demo.three_lines)) ".clones/foo" = true
  ∧ res (Posix.run_from (files_after (Posix.run Demo.three_lines)))
    = Raise (CalledProcessError 128)
  ∧ events (Posix.run_from (files_after (Posix.run Demo.three_lines)))
    = [EMkdir "metadata";
       ERun ["git"; "clone"; "https://example/foo.git"; ".clones/foo"]]
  ∧ res (Posix.run_from (Posix.rmtree ".clones" (files_after (Posix.run Demo.three_lines))))
    = Ok tt
  ∧ writes (events (Posix.run_from
                      (Posix.rmtree ".clones" (files_after (Posix.run Demo.three_lines)))))
    = writes (events (Posix.run Demo.three_lines)).
Proof. repeat split; vm_compute; reflexivity. Qed.







Lemma earlier_failure_hides_parse_error :
  Posix.json_loads Demo.broken_line = None
  ∧ res (Posix.run [Faulty.gone_line; Demo.broken_line]) = Raise (CalledProcessError 128)
  ∧ res (Posix.run [Faulty.no_url_line; Demo.broken_line]) = Raise (KeyError "url").
Proof. repeat split; vm_compute; reflexivity. Qed.

Lemma malformed_line_aborts_run_witness :
  Posix.json_loads Demo.broken_line = None
  ∧ res (Posix.run Demo.with_broken_line) = Raise JSONDecodeError
  ∧ events (Posix.run Demo.with_broken_line)
    = EMkdir "metadata"
      :: events (Posix.loop [] [Demo.foo_line] (Posix.ready Demo.with_broken_line))
  ∧ files_after (Posix.run Demo.with_broken_line)
    = files_after (Posix.loop [] [Demo.foo_line] (Posix.ready Demo.with_broken_line))
  ∧ (length (writes (events (Posix.run Demo.with_broken_line))) ≤ 1)%nat.
Proof.
  split; [reflexivity|].
  pose proof (@malformed_line_aborts_run Posix.env Demo.manifest_path Demo.output_index
                Demo.metadata_dir Demo.clone_root (Posix.start Demo.with_broken_line)
                (String.concat "" Demo.with_broken_line)
                [Demo.foo_line] Demo.broken_line [Demo.baz_line]
                (posix_manifest Demo.with_broken_line) eq_refl eq_refl) as Hrun.
  change (@mkdir_error Posix.env (Posix.start Demo.with_broken_line)
            (Path.str (Path.of_string Demo.metadata_dir)))
    with (@None exn) in Hrun.
  destruct Hrun as (_ & Hevents & Hfiles & Hle).
  split; [vm_compute; reflexivity|]. split; [exact Hevents|].
  split; [exact Hfiles | exact Hle].
Defined.



Lemma empty_project_table_defaults_without_warning_witness :
  Posix.toml_loads Demo.baz_project
  = Some [("build-system", VDict [("requires", VList [VStr "setuptools"])])]
  ∧ res (Posix.step [] Demo.baz_line (Posix.ready []))
    = Ok [@index_entry Posix.env Demo.meta_dir (Demo.entry Demo.baz_fields)]
  ∧ writes (events (Posix.step [] Demo.baz_line (Posix.ready [])))
    = [("metadata/baz.json", Json.dumps (default_record (Demo.entry Demo.baz_fields)))]
  ∧ files_after (Posix.step [] Demo.baz_line (Posix.ready [])) !! "metadata/baz.json"
    = Some (Json.dumps (default_record (Demo.entry Demo.baz_fields)))
  ∧ printed (events (Posix.step [] Demo.baz_line (Posix.ready []))) = [].
Proof.
  split; [reflexivity|].
  apply (@empty_project_table_defaults_without_warning Posix.env Demo.meta_dir
           Demo.clone_dir [] Demo.baz_line (Demo.entry Demo.baz_fields) (Posix.ready [])
           Demo.baz_project
           [("build-system", VDict [("requires", VList [VStr "setuptools"])])]);
    try (vm_compute; reflexivity).
  left. reflexivity.
Defined.

(** ** The error paths at work *)

Lemma completed_run_shape_witness :
  res (Demo.run Demo.three_lines) = Ok tt
  ∧ ∃ (content : string) (ds : list (list (string * value)))
      (projs : list (option (list (string * value)))),
      Demo.files_with Demo.three_lines !! Demo.manifest_path = Some content
      ∧ length ds = 3%nat
      ∧ length projs = length ds
      ∧ commands (events (Demo.run Demo.three_lines))
        = @clone_command Demo.env Demo.clone_dir <$> ds.
Proof.
  assert (Hres : res (Demo.run Demo.three_lines) = Ok tt) by (vm_compute; reflexivity).
  split; [exact Hres|].
  destruct (@completed_run_shape Demo.env Demo.manifest_path Demo.output_index
              Demo.metadata_dir Demo.clone_root (Demo.files_with Demo.three_lines) Hres)
    as (content & ds & projs & Hfile & Hparse & Hlen & _ & Hcmds).
  exists content, ds, projs. repeat split; try assumption.
  rewrite demo_manifest in Hfile. injection Hfile as <-.
  apply Forall2_length in Hparse. rewrite <- Hparse. reflexivity.
Defined.

Lemma aborted_run_shape_witness :
  res (Posix.run [Demo.foo_line; Faulty.gone_line; Demo.bar_line])
  = Raise (CalledProcessError 128)
  ∧ ∃ (ds : list (list (string * value)))
      (projs : list (option (list (string * value)))) t,
      length projs = length ds
      ∧ events (Posix.run [Demo.foo_line; Faulty.gone_line; Demo.bar_line])
        = EMkdir "metadata"
          :: mjoin (zip_with (@line_events Posix.env Demo.meta_dir Demo.clone_dir) ds projs)
          ++ t
      ∧ writes (events (Posix.run [Demo.foo_line; Faulty.gone_line; Demo.bar_line]))
        = zip_with (λ d proj, (@metadata_file Posix.env Demo.meta_dir (entry_id d),
                               Json.dumps (metadata_record d (default [] proj)))) ds projs.
Proof.
  assert (Hres : res (Posix.run [Demo.foo_line; Faulty.gone_line; Demo.bar_line])
                 = Raise (CalledProcessError 128)) by (vm_compute; reflexivity).
  split; [exact Hres|].
  pose proof (@aborted_run_shape Posix.env Demo.manifest_path Demo.output_index
                Demo.metadata_dir Demo.clone_root
                (Posix.start [Demo.foo_line; Faulty.gone_line; Demo.bar_line])
                _ _ (posix_manifest _) Hres) as Hshape.
  change (@mkdir_error Posix.env
            (Posix.start [Demo.foo_line; Faulty.gone_line; Demo.bar_line])
            (Path.str (Path.of_string Demo.metadata_dir)))
    with (@None exn) in Hshape.
  destruct Hshape as (ds & projs & t & Hlen & _ & Hev & Hwrites & _).
  exists ds, projs, t. repeat split; assumption.
Defined.

Lemma missing_manifest_witness :
  mkState ∅ {[ "."; "/" ]} !! Demo.manifest_path = None
  ∧ Posix.run_from (mkState ∅ {[ "."; "/" ]})
    = mkOutcome (Raise (FileNotFoundError "xai_components_manifest.jsonl"))
        (add_dir "metadata" (mkState ∅ {[ "."; "/" ]})) [EMkdir "metadata"]
  ∧ Posix.run_from ∅ = mkOutcome (Raise (FileNotFoundError "metadata")) ∅ [].
Proof.
  split; [reflexivity|]. split.
  - exact (@missing_manifest Posix.env Demo.manifest_path Demo.output_index
             Demo.metadata_dir Demo.clone_root (mkState ∅ {[ "."; "/" ]}) eq_refl).
  - exact (@missing_manifest Posix.env Demo.manifest_path Demo.output_index
             Demo.metadata_dir Demo.clone_root ∅ eq_refl).
Defined.

Lemma empty_manifest_witness :
  Posix.start [] !! Demo.manifest_path = Some ""
  ∧ events (Posix.run [])
    = [EMkdir "metadata"; EWrite "index.json" "[]";
       EPrint "Generated 0 metadata files in 'metadata' and wrote 'index.json'"].
Proof.
  split; [apply (posix_manifest [])|].
  refine (f_equal events
            (@empty_manifest Posix.env Demo.manifest_path Demo.output_index
               Demo.metadata_dir Demo.clone_root (Posix.start []) (posix_manifest []) _ _));
    vm_compute; reflexivity.
Defined.

Lemma missing_key_raises_before_checkout_witness :
  Faulty.step [] Faulty.no_id_line ∅ = mkOutcome (Raise (KeyError "library_id")) ∅ []
  ∧ Faulty.step [] Faulty.no_url_line ∅ = mkOutcome (Raise (KeyError "url")) ∅ [].
Proof.
  split.
  - exact (@missing_key_raises_before_checkout Faulty.env Demo.meta_dir Demo.clone_dir []
             Faulty.no_id_line Faulty.no_id ∅ eq_refl (or_introl eq_refl)).
  - exact (@missing_key_raises_before_checkout Faulty.env Demo.meta_dir Demo.clone_dir []
             Faulty.no_url_line Faulty.no_url ∅ eq_refl (or_intror eq_refl)).
Defined.

Lemma non_object_line_raises_witness :
  Faulty.json_loads Faulty.list_line = Some (VList [VInt 1])
  ∧ Faulty.step [] Faulty.list_line ∅ = mkOutcome (Raise TypeError) ∅ [].
Proof.
  split; [reflexivity|].
  apply (@non_object_line_raises Faulty.env Demo.meta_dir Demo.clone_dir []
           Faulty.list_line (VList [VInt 1]) ∅ eq_refl).
  intros d Hd. discriminate Hd.
Defined.

Lemma non_string_id_raises_witness :
  assoc "library_id" Faulty.numeric_id = Some (VInt 7)
  ∧ Faulty.step [] Faulty.numeric_id_line ∅ = mkOutcome (Raise AttributeError) ∅ [].
Proof.
  split; [reflexivity|].
  apply (@non_string_id_raises Faulty.env Demo.meta_dir Demo.clone_dir []
           Faulty.numeric_id_line Faulty.numeric_id (VInt 7)
           (VStr "https://example/foo.git") ∅ eq_refl eq_refl); [|reflexivity].
  intros s Hs. discriminate Hs.
Defined.

Lemma non_string_url_raises_witness :
  assoc "url" Faulty.numeric_url = Some (VInt 7)
  ∧ Faulty.step [] Faulty.numeric_url_line ∅ = mkOutcome (Raise TypeError) ∅ [].
Proof.
  split; [reflexivity|].
  apply (@non_string_url_raises Faulty.env Demo.meta_dir Demo.clone_dir []
           Faulty.numeric_url_line Faulty.numeric_url "Foo" (VInt 7) ∅
           eq_refl eq_refl eq_refl).
  intros s Hs. discriminate Hs.
Defined.

Lemma failed_checkout_raises_witness :
  (Faulty.subprocess_run ∅ ["git"; "clone"; "https://example/gone.git"; ".clones/gone"]).1
  = 128
  ∧ Faulty.step [] Faulty.gone_line ∅
    = mkOutcome (Raise (CalledProcessError 128)) ∅
        [ERun ["git"; "clone"; "https://example/gone.git"; ".clones/gone"]].
Proof.
  split; [reflexivity|].
  apply (@failed_checkout_raises Faulty.env Demo.meta_dir Demo.clone_dir []
           Faulty.gone_line (Demo.entry Faulty.gone_fields) "Gone"
           "https://example/gone.git" ∅ eq_refl eq_refl eq_refl).
  vm_compute. discriminate.
Defined.


Lemma invalid_project_file_raises_witness :
  Faulty.toml_loads Faulty.garbled_project = None
  ∧ res (Faulty.step [] Faulty.garbled_line ∅) = Raise TomlDecodeError
  ∧ events (Faulty.step [] Faulty.garbled_line ∅)
    = [ERun ["git"; "clone"; "https://example/garbled.git"; ".clones/garbled"]].
Proof.
  split; [reflexivity|].
  pose proof (@invalid_project_file_raises Faulty.env Demo.meta_dir Demo.clone_dir []
                Faulty.garbled_line (Demo.entry Faulty.garbled_fields) "Garbled"
                "https://example/garbled.git" ∅ Faulty.garbled_project
                eq_refl eq_refl eq_refl eq_refl (lookup_written _ _ _) eq_refl) as Hstep.
  split; [exact (f_equal res Hstep) | exact (f_equal events Hstep)].
Defined.

Lemma non_table_project_raises_witness :
  Faulty.toml_loads Faulty.scalar_project = Some [("project", VInt 1)]
  ∧ res (Faulty.step [] Faulty.scalar_line ∅) = Raise AttributeError
  ∧ events (Faulty.step [] Faulty.scalar_line ∅)
    = [ERun ["git"; "clone"; "https://example/scalar.git"; ".clones/scalar"]].
Proof.
  split; [reflexivity|].
  assert (Hstep := @non_table_project_raises Faulty.env Demo.meta_dir Demo.clone_dir []
                     Faulty.scalar_line (Demo.entry Faulty.scalar_fields) "Scalar"
                     "https://example/scalar.git" (VStr "libs/scalar") ∅
                     Faulty.scalar_project [("project", VInt 1)] (VInt 1)
                     eq_refl eq_refl eq_refl eq_refl eq_refl
                     (lookup_written _ _ _) eq_refl eq_refl).
  assert (Hv : ∀ t, VInt 1 ≠ VDict t) by (intros t Ht; discriminate Ht).
  specialize (Hstep Hv).
  split; [exact (f_equal res Hstep) | exact (f_equal events Hstep)].
Defined.

Lemma project_fields_merge_witness :
  Posix.toml_loads Demo.bar_project
  = Some [("project", VDict [("version", VStr "1.2.0");
                             ("description", VStr "Bar components")])]
  ∧ ∃ record,
      record = VDict [
          ("library_id", VStr "Bar");
          ("path", VStr "libs/bar");
          ("url", VStr "https://example/bar.git");
          ("git_ref", VStr "dev");
          ("version", VStr "1.2.0");
          ("description", VStr "Bar components");
          ("authors", VList []);
          ("license", VStr "N/A");
          ("readme", VNone);
          ("repository", VNone);
          ("keywords", VList []);
          ("requirements", VList [])]
      ∧ writes (events (Posix.step [] Demo.bar_line (Posix.ready [])))
        = [("metadata/bar.json", Json.dumps record)]
      ∧ files_after (Posix.step [] Demo.bar_line (Posix.ready [])) !! "metadata/bar.json"
        = Some (Json.dumps record)
      ∧ printed (events (Posix.step [] Demo.bar_line (Posix.ready []))) = [].
Proof.
  split; [reflexivity|].
  apply (@project_fields_merge Posix.env Demo.meta_dir Demo.clone_dir [] Demo.bar_line
           (Demo.entry Demo.bar_fields) "Bar" (VStr "libs/bar") "https://example/bar.git"
           (Posix.ready []) Demo.bar_project
           [("project", VDict [("version", VStr "1.2.0");
                               ("description", VStr "Bar components")])]
           [("version", VStr "1.2.0"); ("description", VStr "Bar components")]);
    vm_compute; reflexivity.
Defined.


Lemma mkdir_failure_stops_run_witness :
  Posix.mkdir_error ∅ "metadata" = Some (FileNotFoundError "metadata")
  ∧ Posix.run_from ∅ = mkOutcome (Raise (FileNotFoundError "metadata")) ∅ [].
Proof.
  split; [reflexivity|].
  exact (@mkdir_failure_stops_run Posix.env Demo.manifest_path Demo.output_index
           Demo.metadata_dir Demo.clone_root ∅ (FileNotFoundError "metadata") eq_refl).
Defined.


Lemma date_in_record_leaves_partial_file_witness :
  Posix.toml_loads Posix.dated_project
  = Some [("project", VDict [("version", VDate "2024-01-01")])]
  ∧ res (Posix.step [] Posix.dated_line (Posix.ready [])) = Raise TypeError
  ∧ partial_writes (events (Posix.step [] Posix.dated_line (Posix.ready [])))
    = [("metadata/dated.json",
        "{" +:+ Json.newline 1 +:+ Demo.q "library_id" +:+ ": " +:+ Demo.q "Dated" +:+ ","
        +:+ Json.newline 1 +:+ Demo.q "path" +:+ ": " +:+ Demo.q "libs/dated" +:+ ","
        +:+ Json.newline 1 +:+ Demo.q "url" +:+ ": " +:+ Demo.q "https://example/dated.git"
        +:+ "," +:+ Json.newline 1 +:+ Demo.q "git_ref" +:+ ": " +:+ Demo.q "main" +:+ ","
        +:+ Json.newline 1 +:+ Demo.q "version" +:+ ": ")]
  ∧ is_Some (files_after (Posix.step [] Posix.dated_line (Posix.ready []))
               !! "metadata/dated.json").
Proof.
  split; [reflexivity|].
  destruct (@date_in_record_leaves_partial_file Posix.env Demo.meta_dir Demo.clone_dir []
              Posix.dated_line (Demo.entry Posix.dated_fields) (Posix.ready []))
    as [Hstep Hfile]; try (vm_compute; reflexivity).
  split; [exact (f_equal res Hstep)|].
  split; [vm_compute; reflexivity|].
  eexists. exact Hfile.
Defined.

